(** * PrismAI frontend: the response normalizer and request lifecycle of
      [src/frontend/src/App.jsx]

    The development embeds the first (most complete) [App] component of
    [App.jsx]: the stage catalog [simulateThinkingSteps], the state update
    [updateThinkingStep], and the asynchronous handler [handleSubmit] with
    the response classification it performs inline on the parsed body,
    with the conditions under which the component renders its parts.  Of
    the two later [App] components that follow in the same file it embeds
    the classification of the parsed body.

    JavaScript strings are modelled by [string], one [ascii] per UTF-16 code
    unit (the model covers code units below 256).  The value of a parsed
    response body is a [json] tree; the results of property reads are
    [value]s, which add [undefined] and built-in functions.  Abrupt
    completions (a thrown [TypeError], a rejected promise) are explicit:
    fallible operations return a [completion]. *)

From Stdlib Require Import Ascii.
From stdpp Require Import base option list strings pretty gmap.

(** ** Characters the source needs and a string literal cannot hold *)

Definition LF : string := String "010"%char "".
Definition DQUOTE : string := String "034"%char "".
Definition BACKSLASH : string := String "092"%char "".

(** ** The JavaScript runtime the component runs on

    Numbers are IEEE doubles and case mapping follows the Unicode tables.
    The code applies only four runtime operations to them; they are kept
    abstract, and every theorem holds for any runtime. *)

Class JSRuntime := {
  number : Type;
  (** ToBoolean on a Number: false exactly for [+0], [-0] and [NaN]. *)
  number_ToBoolean : number → bool;
  (** Number::toString, radix 10. *)
  number_ToString : number → string;
  (** [JSON.parse] overflows large literals to an infinity, which
      [JSON.stringify] prints as [null]. *)
  number_isFinite : number → bool;
  (** String.prototype.toUpperCase. *)
  toUpperCase : string → string
}.

(** ** Abrupt completions

    What is thrown is always an [Error] object; the handler reads only its
    [message].  The messages of the errors the engine raises are given in
    V8's wording. *)

Inductive Error :=
| TypeError (message : string)
| SyntaxError (message : string).

Definition message (e : Error) : string :=
  match e with TypeError m | SyntaxError m => m end.

Inductive completion (A : Type) :=
| Normal (a : A)
| Throw (e : Error).
Arguments Normal {A} a.
Arguments Throw {A} e.

#[global] Instance completion_ret : MRet completion := λ A a, Normal a.
#[global] Instance completion_bind : MBind completion := λ A B f c,
  match c with Normal a => f a | Throw e => Throw e end.

(** [xs.forEach(x => { acc = body acc x })]: the callback runs on the
    elements in index order; a throw inside it abandons the loop. *)
Fixpoint forEach {A S : Type} (xs : list A) (body : S → A → completion S)
    (acc : S) : completion S :=
  match xs with
  | [] => Normal acc
  | x :: rest =>
      match body acc x with
      | Normal acc' => forEach rest body acc'
      | Throw e => Throw e
      end
  end.

(** [xs.map(f)] for a callback that may throw. *)
Fixpoint mapC {A B : Type} (f : A → completion B) (xs : list A)
    : completion (list B) :=
  match xs with
  | [] => Normal []
  | x :: rest =>
      match f x with
      | Normal y =>
          match mapC f rest with
          | Normal ys => Normal (y :: ys)
          | Throw e => Throw e
          end
      | Throw e => Throw e
      end
  end.

(** Concatenation of strings with a separator, as [Array.prototype.join]
    does once its elements are converted. *)
Fixpoint join_strings (sep : string) (parts : list string) : string :=
  match parts with
  | [] => ""
  | [p] => p
  | p :: rest => p +:+ sep +:+ join_strings sep rest
  end.

(** ** String methods the source calls *)

(** [s.length] *)
Fixpoint str_length (s : string) : nat :=
  match s with EmptyString => 0 | String _ rest => S (str_length rest) end.

(** [s.slice(start)] for a non-negative [start]. *)
Fixpoint slice_from (start : nat) (s : string) : string :=
  match start, s with
  | 0, _ => s
  | S n, EmptyString => ""
  | S n, String _ rest => slice_from n rest
  end.

Fixpoint str_prefix (n : nat) (s : string) : string :=
  match n, s with
  | 0, _ => ""
  | S n, EmptyString => ""
  | S n, String c rest => String c (str_prefix n rest)
  end.

(** [s.slice(start, finish)] for non-negative bounds. *)
Definition slice (start finish : nat) (s : string) : string :=
  str_prefix (finish - start) (slice_from start s).

(** [s.charAt(i)] *)
Definition charAt (i : nat) (s : string) : string := str_prefix 1 (slice_from i s).

(** WhiteSpace and LineTerminator code units below 256: TAB, LF, VT, FF, CR,
    SP and NBSP. *)
Definition is_white_space (c : ascii) : bool :=
  let n := nat_of_ascii c in
  bool_decide (n = 9) || bool_decide (n = 10) || bool_decide (n = 11)
  || bool_decide (n = 12) || bool_decide (n = 13) || bool_decide (n = 32)
  || bool_decide (n = 160).

Fixpoint trimStart (s : string) : string :=
  match s with
  | EmptyString => ""
  | String c rest => if is_white_space c then trimStart rest else s
  end.

Fixpoint trimEnd (s : string) : string :=
  match s with
  | EmptyString => ""
  | String c rest =>
      let rest' := trimEnd rest in
      if is_white_space c && bool_decide (rest' = "") then "" else String c rest'
  end.

(** [s.trim()] *)
Definition trim (s : string) : string := trimEnd (trimStart s).

(** ** The stage catalog (lines 20-33) *)

Inductive Status := pending | thinking | completed.

Record Stage := {
  id : nat;
  title : string;
  description : string;
  status : Status
}.

Definition simulateThinkingSteps (query : string) : list Stage :=
  let baseSteps := [
    {| id := 1; title := "Analyzing query";
       description := "Parsing: " +:+ DQUOTE +:+ slice 0 50 query
                      +:+ (if bool_decide (50 < str_length query) then "..." else "")
                      +:+ DQUOTE;
       status := thinking |};
    {| id := 2; title := "Identifying themes";
       description := "Detecting philosophical dimensions and core concepts";
       status := pending |};
    {| id := 3; title := "Selecting philosophers";
       description := "Choosing the most relevant ancient wisdom traditions";
       status := pending |};
    {| id := 4; title := "Consulting Socrates";
       description := "Applying Socratic questioning and epistemic inquiry";
       status := pending |};
    {| id := 5; title := "Consulting Marcus Aurelius";
       description := "Drawing on Stoic principles and practical wisdom";
       status := pending |};
    {| id := 6; title := "Consulting Lao Tzu";
       description := "Integrating Daoist flow and natural harmony";
       status := pending |};
    {| id := 7; title := "Consulting Aristotle";
       description := "Applying systematic analysis and virtue ethics";
       status := pending |};
    {| id := 8; title := "Cross-referencing wisdom";
       description := "Finding convergences and complementary insights";
       status := pending |};
    {| id := 9; title := "Synthesizing response";
       description := "Weaving together multiple philosophical perspectives";
       status := pending |}
  ] in
  baseSteps.

Section JS.
Context `{JSRuntime}.

(** ** Values *)

(** A value produced by [JSON.parse].  [JObj] lists the own properties of
    the object in its enumeration order. *)
#[warnings="-register-all"]
Inductive json :=
| JNull
| JBool (b : bool)
| JNum (n : number)
| JStr (s : string)
| JArr (elements : list json)
| JObj (properties : list (string * json)).

(** What an expression over parsed data can evaluate to. *)
Inductive value :=
| VUndefined
| VJson (j : json)
| VNative (name : string).

Coercion VJson : json >-> value.

Definition Str (s : string) : value := VJson (JStr s).

Definition ToBoolean (v : value) : bool :=
  match v with
  | VUndefined => false
  | VJson JNull => false
  | VJson (JBool b) => b
  | VJson (JNum n) => number_ToBoolean n
  | VJson (JStr s) => negb (bool_decide (s = ""))
  | VJson (JArr _) | VJson (JObj _) => true
  | VNative _ => true
  end.

Definition typeof (v : value) : string :=
  match v with
  | VUndefined => "undefined"
  | VJson JNull => "object"
  | VJson (JBool _) => "boolean"
  | VJson (JNum _) => "number"
  | VJson (JStr _) => "string"
  | VJson (JArr _) | VJson (JObj _) => "object"
  | VNative _ => "function"
  end.

Definition isArray (v : value) : bool :=
  match v with VJson (JArr _) => true | _ => false end.

(** Own property lookup in an object. *)
Fixpoint own (key : string) (properties : list (string * json)) : option json :=
  match properties with
  | [] => None
  | (k, v) :: rest => if bool_decide (k = key) then Some v else own key rest
  end.

(** [v.key] for the property names the source reads.  None of them is an
    index or [length], and of the built-in prototypes only
    [String.prototype] defines one of them: the legacy method [link],
    which [cp.link] on a string element finds. *)
Definition Get (v : value) (key : string) : completion value :=
  match v with
  | VUndefined =>
      Throw (TypeError ("Cannot read properties of undefined (reading '" +:+ key +:+ "')"))
  | VJson JNull =>
      Throw (TypeError ("Cannot read properties of null (reading '" +:+ key +:+ "')"))
  | VJson (JObj properties) =>
      Normal (match own key properties with Some j => VJson j | None => VUndefined end)
  | VJson (JStr _) =>
      Normal (if bool_decide (key = "link") then VNative "link" else VUndefined)
  | VJson (JBool _) | VJson (JNum _) | VJson (JArr _) | VNative _ =>
      Normal VUndefined
  end.

(** [v?.key] *)
Definition GetOptional (v : value) (key : string) : completion value :=
  match v with
  | VUndefined | VJson JNull => Normal VUndefined
  | _ => Get v key
  end.

(** [a || b]: [b] is consulted only when [a] completes with a falsy value. *)
Definition or_else (a b : completion value) : completion value :=
  match a with
  | Normal x => if ToBoolean x then Normal x else b
  | Throw e => Throw e
  end.

(** [a && b]: [b] is consulted only when [a] completes with a truthy value. *)
Definition and_then (a b : completion value) : completion value :=
  match a with
  | Normal x => if ToBoolean x then b else Normal x
  | Throw e => Throw e
  end.

Infix "|||" := or_else (at level 50, left associativity).
Infix "&&&" := and_then (at level 40, left associativity).

(** ** Conversion to strings *)

Definition threw_not_primitive {A} : completion A :=
  Throw (TypeError "Cannot convert object to primitive value").

(** ToString on parsed data.  An array converts through [join(",")], where
    [null] elements print as the empty string.  A plain object converts
    through [Object.prototype.toString], unless an own property [toString]
    (never callable in parsed data) shadows it: then neither [toString] nor
    [valueOf] yields a primitive and the conversion throws. *)
Fixpoint ToString_json (j : json) : completion string :=
  match j with
  | JNull => Normal "null"
  | JBool b => Normal (if b then "true" else "false")
  | JNum n => Normal (number_ToString n)
  | JStr s => Normal s
  | JArr elements =>
      parts ← mapC (λ x, match x with JNull => Normal "" | _ => ToString_json x end)
                   elements;
      Normal (join_strings "," parts)
  | JObj properties =>
      match own "toString" properties with
      | Some _ => threw_not_primitive
      | None => Normal "[object Object]"
      end
  end.

(** ToString of any value; also what [v + LF] applies to [v], since
    ToPrimitive without a hint differs from the string hint only in the
    order in which it tries [valueOf] and [toString]. *)
Definition ToString (v : value) : completion string :=
  match v with
  | VUndefined => Normal "undefined"
  | VJson j => ToString_json j
  | VNative name => Normal ("function " +:+ name +:+ "() { [native code] }")
  end.

(** [xs.join(sep)] *)
Definition join (sep : string) (xs : list value) : completion string :=
  parts ← mapC (λ x, match x with
                     | VUndefined | VJson JNull => Normal ""
                     | _ => ToString x
                     end) xs;
  Normal (join_strings sep parts).

(** ** JSON.stringify *)

Definition hex_digit (n : nat) : string :=
  String (nth n ["0"; "1"; "2"; "3"; "4"; "5"; "6"; "7"; "8"; "9";
                 "a"; "b"; "c"; "d"; "e"; "f"]%char "0"%char) "".

(** The escape of one code unit in QuoteJSONString. *)
Definition quote_char (c : ascii) : string :=
  let n := nat_of_ascii c in
  if bool_decide (n = 34) then BACKSLASH +:+ DQUOTE
  else if bool_decide (n = 92) then BACKSLASH +:+ BACKSLASH
  else if bool_decide (n = 8) then BACKSLASH +:+ "b"
  else if bool_decide (n = 9) then BACKSLASH +:+ "t"
  else if bool_decide (n = 10) then BACKSLASH +:+ "n"
  else if bool_decide (n = 12) then BACKSLASH +:+ "f"
  else if bool_decide (n = 13) then BACKSLASH +:+ "r"
  else if bool_decide (n < 32)
       then BACKSLASH +:+ "u00" +:+ hex_digit (n / 16) +:+ hex_digit (n mod 16)
  else String c "".

Fixpoint quote_chars (s : string) : string :=
  match s with
  | EmptyString => ""
  | String c rest => quote_char c +:+ quote_chars rest
  end.

Definition QuoteJSONString (s : string) : string :=
  DQUOTE +:+ quote_chars s +:+ DQUOTE.

(** SerializeJSONProperty with the given [gap] at the current [indent]. *)
Fixpoint SerializeJSONProperty (gap indent : string) (j : json) : string :=
  let wrap (opening closing : string) (partial : list string) :=
    match partial with
    | [] => opening +:+ closing
    | _ =>
        if bool_decide (gap = "")
        then opening +:+ join_strings "," partial +:+ closing
        else opening +:+ LF +:+ (indent +:+ gap)
             +:+ join_strings ("," +:+ LF +:+ (indent +:+ gap)) partial
             +:+ LF +:+ indent +:+ closing
    end in
  match j with
  | JNull => "null"
  | JBool b => if b then "true" else "false"
  | JNum n => if number_isFinite n then number_ToString n else "null"
  | JStr s => QuoteJSONString s
  | JArr elements =>
      wrap "[" "]" (map (SerializeJSONProperty gap (indent +:+ gap)) elements)
  | JObj properties =>
      wrap "{" "}"
        (map (λ p, QuoteJSONString p.1
                   +:+ (if bool_decide (gap = "") then ":" else ": ")
                   +:+ SerializeJSONProperty gap (indent +:+ gap) p.2)
             properties)
  end.

(** [JSON.stringify(j)] and [JSON.stringify(j, null, 2)].  An own [toJSON]
    property of parsed data is never callable, so it is ignored. *)
Definition JSON_stringify (j : json) : string := SerializeJSONProperty "" "" j.
Definition JSON_stringify_2 (j : json) : string := SerializeJSONProperty "  " "" j.

(** ** Object.entries *)

Fixpoint chars_from (i : nat) (s : string) : list (string * value) :=
  match s with
  | EmptyString => []
  | String c rest => (pretty i, Str (String c "")) :: chars_from (S i) rest
  end.

(** [Object.entries(v)]: own enumerable string-keyed properties.  Arrays and
    strings expose their indices; numbers, booleans and functions have none. *)
Definition Object_entries (v : value) : completion (list (string * value)) :=
  match v with
  | VUndefined | VJson JNull =>
      Throw (TypeError "Cannot convert undefined or null to object")
  | VJson (JObj properties) => Normal (map (λ p, (p.1, VJson p.2)) properties)
  | VJson (JArr elements) =>
      Normal (imap (λ i x, (pretty i, VJson x)) elements)
  | VJson (JStr s) => Normal (chars_from 0 s)
  | VJson (JBool _) | VJson (JNum _) | VNative _ => Normal []
  end.

(** [key.charAt(0).toUpperCase() + key.slice(1)] *)
Definition capitalize (key : string) : string :=
  toUpperCase (charAt 0 key) +:+ slice_from 1 key.

(** ** The response variants built by [handleSubmit] (the [botReply] and
       [errorReply] objects, tagged by their [type] property)

    [responses] is the object the handler fills by assignment, one property
    per philosopher: a finite map from names to formatted texts. *)

Inductive Reply :=
| philosophical_response (philosophers : value) (responses : gmap string string)
                         (synthesis : value)
| synthesis_response (philosophers : value) (content : value)
| formatted_response (content : string)
| error_response (content : string) (error : string).

(** ** Formatting one entry of [reasoning_chain] (lines 80-101) *)

(** The callback of [step.reasoning_process.forEach] (lines 85-91). *)
Definition format_reasoning_entry (text : string) (rp : json) : completion string :=
  if bool_decide (typeof rp = "object") then
    label ← Get rp "type" ||| Get rp "step" ||| Normal (Str "");
    label ← ToString label;
    body ← Get rp "description" ||| Get rp "exploration" ||| Get rp "analysis"
           ||| Get rp "sub-step" ||| Normal (Str "");
    body ← ToString body;
    Normal (text +:+ "- " +:+ label +:+ ": " +:+ body +:+ LF)
  else
    rp ← ToString rp;
    Normal (text +:+ "- " +:+ rp +:+ LF).

(** [Array.isArray(x) ? x.map(e => e.key || e).join('\n') : x || 'None'],
    the shape shared by lines 95, 97, 98 and 99. *)
Definition mapped_or_None (x : value) (key : string) : completion value :=
  match x with
  | VJson (JArr elements) =>
      mapped ← mapC (λ e : json, Get e key ||| Normal (VJson e)) elements;
      joined ← join LF mapped;
      Normal (Str joined)
  | _ => Normal x ||| Normal (Str "None")
  end.

(** The callback of [data.reasoning_chain.forEach]; [responses] is the
    object it fills.  The assignment [responses[philosopher] = text]
    converts [philosopher] to a property key; on the key [__proto__] it
    reaches the inherited setter, which ignores a string. *)
Definition format_step (responses : gmap string string) (step : json)
    : completion (gmap string string) :=
  philosopher ← Get step "philosopher";
  core_insight ← Get step "core_insight" ||| Normal (Str "No insight provided");
  core_insight ← ToString core_insight;
  let text := "**Core Insight**: " +:+ core_insight +:+ LF +:+ LF in
  let text := text +:+ "**Reasoning Process**:" +:+ LF in
  reasoning_process ← Get step "reasoning_process";
  text ← match reasoning_process with
         | VJson (JArr entries) => forEach entries format_reasoning_entry text
         | _ => Normal (text +:+ "- No reasoning process provided" +:+ LF)
         end;
  x ← Get step "metacognitive_awareness";
  x ← mapped_or_None x "reflection";
  x ← ToString x;
  let text := text +:+ LF +:+ "**Metacognitive Awareness**: " +:+ x +:+ LF in
  x ← Get step "socratic_catalyst" ||| Normal (Str "None");
  x ← ToString x;
  let text := text +:+ "**Socratic Catalyst**: " +:+ x +:+ LF in
  x ← Get step "practical_application";
  x ← mapped_or_None x "step";
  x ← ToString x;
  let text := text +:+ "**Practical Application**: " +:+ x +:+ LF in
  x ← Get step "connection_to_principles";
  x ← mapped_or_None x "link";
  x ← ToString x;
  let text := text +:+ "**Connection to Principles**: " +:+ x +:+ LF in
  x ← Get step "cognitive_stimulation";
  x ← mapped_or_None x "exercise";
  x ← ToString x;
  let text := text +:+ "**Cognitive Stimulation**: " +:+ x in
  key ← ToString philosopher;
  Normal (if bool_decide (key = "__proto__") then responses
          else <[key := text]> responses).

(** ** Formatting [data.synthesis] (lines 104-191) *)

(** A bulleted section: [if (Array.isArray(list)) list.forEach(x =>
    synthesisText += `- ${entry x}\n`) else synthesisText += none]. *)
Definition bullets (list : value) (entry : json → completion value)
    (none : string) (synthesisText : string) : completion string :=
  match list with
  | VJson (JArr elements) =>
      forEach elements
        (λ synthesisText x,
           v ← entry x;
           v ← ToString v;
           Normal (synthesisText +:+ "- " +:+ v +:+ LF))
        synthesisText
  | _ => Normal (synthesisText +:+ none +:+ LF)
  end.

(** [Array.isArray(x) ? x.join('\n') : x || 'None'] (lines 177 and 188). *)
Definition joined_or_None (x : value) : completion value :=
  match x with
  | VJson (JArr elements) =>
      joined ← join LF (map VJson elements);
      Normal (Str joined)
  | _ => Normal x ||| Normal (Str "None")
  end.

Definition format_synthesis (synthesis : value) : completion value :=
  if bool_decide (typeof synthesis = "object") then
    let synthesisText := "" in
    (* line 106 *)
    integrated_wisdom ← Get synthesis "integrated_wisdom";
    x ← GetOptional integrated_wisdom "unified_insight_combining_all_perspectives"
        ||| Normal integrated_wisdom ||| Normal (Str "No unified insight provided");
    x ← ToString x;
    let synthesisText := synthesisText +:+ "**Integrated Wisdom**: " +:+ x +:+ LF +:+ LF in
    (* lines 107-114 *)
    let synthesisText := synthesisText +:+ "**Key Insights**:" +:+ LF in
    list ← Get synthesis "key_insights";
    synthesisText ← bullets list
      (λ ki, Get ki "most_important_discovery"
             ||| Get ki "unexamined_life_is_not_worth_living"
             ||| Normal (VJson ki) ||| Normal (Str "No insight provided"))
      "- No key insights provided" synthesisText;
    (* lines 115-122 *)
    let synthesisText := synthesisText +:+ LF +:+ "**Practical Steps**:" +:+ LF in
    list ← Get synthesis "practical_steps";
    synthesisText ← bullets list
      (λ ps, Get ps "step_1" ||| Get ps "step_2" ||| Get ps "step_3" ||| Get ps "step"
             ||| Normal (VJson ps) ||| Normal (Str "No step provided"))
      "- No practical steps provided" synthesisText;
    (* lines 123-135 *)
    let synthesisText := synthesisText +:+ LF +:+ "**Metacognitive Enhancement**:" +:+ LF in
    metacognitiveEnhancement ← Get synthesis "metacognitive_enhancement";
    synthesisText ←
      match metacognitiveEnhancement with
      | VJson (JArr _) =>
          bullets metacognitiveEnhancement
            (λ me, Get me "reflection" ||| Get me "self-awareness"
                   ||| Normal (VJson me) ||| Normal (Str "No enhancement provided"))
            "" synthesisText
      | VJson (JStr s) =>                       (* typeof ... === 'string' *)
          Normal (synthesisText +:+ "- " +:+ s +:+ LF)
      | VJson (JObj _ as me) =>                 (* an object other than null *)
          Normal (synthesisText +:+ "- " +:+ JSON_stringify me +:+ LF)
      | _ => Normal (synthesisText +:+ "- No metacognitive enhancement provided" +:+ LF)
      end;
    (* lines 136-143 *)
    let synthesisText := synthesisText +:+ LF +:+ "**Reasoning Quality Assessment**:" +:+ LF in
    list ← Get synthesis "reasoning_quality_assessment";
    synthesisText ← bullets list
      (λ rqa, Get rqa "evaluation_of_reasoning_process"
              ||| Normal (VJson rqa) ||| Normal (Str "No assessment provided"))
      "- No reasoning quality assessment provided" synthesisText;
    (* lines 144-151 *)
    let synthesisText := synthesisText +:+ LF +:+ "**Cognitive Bridges**:" +:+ LF in
    list ← Get synthesis "cognitive_bridges";
    synthesisText ← bullets list
      (λ cb, Get cb "connection_between_different_thinking_modes"
             ||| Normal (VJson cb) ||| Normal (Str "No bridge provided"))
      "- No cognitive bridges provided" synthesisText;
    (* lines 152-159 *)
    let synthesisText := synthesisText +:+ LF +:+ "**Transformative Elements**:" +:+ LF in
    list ← Get synthesis "transformative_elements";
    synthesisText ← bullets list
      (λ te, Get te "aspect_that_could_change_user_perspective"
             ||| Get te "shift_in_focusing_on_what_you_can_control"
             ||| Normal (VJson te) ||| Normal (Str "No element provided"))
      "- No transformative elements provided" synthesisText;
    (* lines 160-167 *)
    let synthesisText := synthesisText +:+ LF +:+ "**Application Scenarios**:" +:+ LF in
    list ← Get synthesis "application_scenarios";
    synthesisText ← bullets list
      (λ as_, Get as_ "where_this_wisdom_applies"
              ||| Normal (VJson as_) ||| Normal (Str "No scenario provided"))
      "- No application scenarios provided" synthesisText;
    (* lines 168-175 *)
    let synthesisText := synthesisText +:+ LF +:+ "**Deepening Questions**:" +:+ LF in
    list ← Get synthesis "deepening_questions";
    synthesisText ← bullets list
      (λ dq, Get dq "questions_for_continued_exporation"
             ||| Normal (VJson dq) ||| Normal (Str "No question provided"))
      "- No deepening questions provided" synthesisText;
    (* lines 176-177 *)
    let synthesisText := synthesisText +:+ LF +:+ "**Metacognitive Prompts**:" +:+ LF in
    x ← Get synthesis "metacognitive_prompts";
    x ← joined_or_None x;
    x ← ToString x;
    let synthesisText := synthesisText +:+ (x +:+ LF) in
    (* lines 178-185 *)
    let synthesisText := synthesisText +:+ LF +:+ "**Dialectical Challenges**:" +:+ LF in
    dialectical_challenges ← Get synthesis "dialectical_challenges";
    synthesisText ←
      (if ToBoolean dialectical_challenges then
         entries ← Object_entries dialectical_challenges;
         forEach entries
           (λ synthesisText entry,
              v ← ToString entry.2;
              Normal (synthesisText +:+ "- " +:+ capitalize entry.1 +:+ ": " +:+ v +:+ LF))
           synthesisText
       else Normal (synthesisText +:+ "- No dialectical challenges provided" +:+ LF));
    (* line 186 *)
    x ← Get synthesis "synthesis_quality_score" ||| Normal (Str "Not provided");
    x ← ToString x;
    let synthesisText := synthesisText +:+ LF +:+ "**Synthesis Quality Score**: " +:+ x +:+ LF in
    (* lines 187-188 *)
    let synthesisText := synthesisText +:+ "**Cognitive Enhancement Elements**:" +:+ LF in
    x ← Get synthesis "cognitive_enhancement_elements";
    x ← joined_or_None x;
    x ← ToString x;
    Normal (Str (synthesisText +:+ x))
  else
    (* line 190 *)
    Normal synthesis ||| Normal (Str "No synthesis provided").

(** ** The classification of the parsed body (lines 76-210) *)

Definition default_philosophers : value := VJson (JArr [JStr "Ancient Philosophers"]).

Definition botReply (data : json) : completion Reply :=
  test ← Get data "reasoning_chain" &&& Get data "synthesis";
  if ToBoolean test then
    reasoning_chain ← Get data "reasoning_chain";
    responses ←
      match reasoning_chain with
      | VJson (JArr steps) => forEach steps format_step ∅
      | _ => Throw (TypeError "data.reasoning_chain.forEach is not a function")
      end;
    synthesis ← Get data "synthesis";
    synthesisText ← format_synthesis synthesis;
    philosophers ← Get data "philosophers_consulted";
    Normal (philosophical_response philosophers responses synthesisText)
  else
    synthesis ← Get data "synthesis";
    if bool_decide (typeof synthesis = "string") then
      philosophers ← Get data "philosophers" ||| Normal default_philosophers;
      Normal (synthesis_response philosophers synthesis)
    else
      Normal (formatted_response (JSON_stringify_2 data)).

(** ** Component state and the effects of [handleSubmit] *)

(** A reading of [new Date()], in milliseconds. *)
Definition Date := N.

Inductive Sender := user | bot.

(** The [text] of a message: the query string of a user message, the reply
    object of a bot message. *)
Inductive MessageText :=
| Text (s : string)
| Structured (reply : Reply).

Record Message := {
  sender : Sender;
  text : MessageText;
  timestamp : Date
}.

(** The [useState] cells of [App] (lines 5-9). *)
Record AppState := {
  query : string;
  messages : list Message;
  loading : bool;
  thinkingSteps : list Stage;
  typingMessage : option Date
}.

(** What the handler does to the outside, in program order.  An [await]
    suspends the handler until its promise settles, so the statements after
    it run once the awaited timer has fired or the awaited request has
    ended: the trace lists the effects in the order in which the handler
    performs them. *)
Inductive Event :=
| preventDefault
| setTimeout (ms : nat)                          (* an awaited timer *)
| fetch (url method body : string)               (* the request is issued *)
| res_json.                                      (* the body is read *)

Record World := {
  ui : AppState;
  trace : list Event
}.

(** How the awaited request ends. *)
Inductive Network :=
| fetch_rejects (error : Error)
| json_rejects (error : Error)
| json_resolves (data : json).

(** What the environment supplies to one run of the handler: the three
    readings of [new Date()], in program order, and the network outcome. *)
Record Env := {
  submitted_at : Date;
  typing_at : Date;
  replied_at : Date;
  network : Network
}.

Definition emit (e : Event) (w : World) : World :=
  {| ui := ui w; trace := trace w ++ [e] |}.

Definition setQuery (q : string) (w : World) : World :=
  {| ui := {| query := q; messages := messages (ui w); loading := loading (ui w);
              thinkingSteps := thinkingSteps (ui w);
              typingMessage := typingMessage (ui w) |};
     trace := trace w |}.

Definition setMessages (f : list Message → list Message) (w : World) : World :=
  {| ui := {| query := query (ui w); messages := f (messages (ui w));
              loading := loading (ui w); thinkingSteps := thinkingSteps (ui w);
              typingMessage := typingMessage (ui w) |};
     trace := trace w |}.

Definition setLoading (b : bool) (w : World) : World :=
  {| ui := {| query := query (ui w); messages := messages (ui w); loading := b;
              thinkingSteps := thinkingSteps (ui w);
              typingMessage := typingMessage (ui w) |};
     trace := trace w |}.

Definition setThinkingSteps (f : list Stage → list Stage) (w : World) : World :=
  {| ui := {| query := query (ui w); messages := messages (ui w);
              loading := loading (ui w); thinkingSteps := f (thinkingSteps (ui w));
              typingMessage := typingMessage (ui w) |};
     trace := trace w |}.

Definition setTypingMessage (t : option Date) (w : World) : World :=
  {| ui := {| query := query (ui w); messages := messages (ui w);
              loading := loading (ui w); thinkingSteps := thinkingSteps (ui w);
              typingMessage := t |};
     trace := trace w |}.

(** Lines 35-41. *)
Definition updateThinkingStep (stepId : nat) (status' : Status) : World → World :=
  setThinkingSteps (λ prev,
    map (λ step, if bool_decide (id step = stepId)
                 then {| id := id step; title := title step;
                         description := description step; status := status' |}
                 else step) prev).

(** The loop of lines 57-63, over the stages from index [i] on: each round
    awaits the timer before it touches the state. *)
Fixpoint thinking_loop (steps : list Stage) (w : World) : World :=
  match steps with
  | [] => w
  | step :: later =>
      let w := emit (setTimeout 800) w in
      let w := updateThinkingStep (id step) completed w in
      let w := match later with
               | next :: _ => updateThinkingStep (id next) thinking w
               | [] => w
               end in
      thinking_loop later w
  end.

Definition apology : string :=
  "I apologize, but I'm having trouble connecting right now. Please try again in a moment.".

(** The body of the [try] block up to [botReply] (lines 68-210): the
    request is issued, the body read, the reply built. *)
Definition request (env : Env) (currentQuery : string) (w : World)
    : completion Reply * World :=
  let w := emit (fetch "http://localhost:8000/ask" "POST"
                       (JSON_stringify (JObj [("text", JStr currentQuery)]))) w in
  match network env with
  | fetch_rejects error => (Throw error, w)
  | json_rejects error => (Throw error, emit res_json w)
  | json_resolves data => (botReply data, emit res_json w)
  end.

(** Lines 47-65, from the guard to the request: the user message, the
    cleared input, the stage loop and the typing indicator.  Its result is
    what the component holds when [fetch] is called. *)
Definition until_request (env : Env) (query : string) (w : World) : World :=
  let newMessage := {| sender := user; text := Text query;
                       timestamp := submitted_at env |} in
  let w := setMessages (λ prev, prev ++ [newMessage]) w in
  let currentQuery := query in
  let w := setQuery "" w in
  let w := setLoading true w in
  let steps := simulateThinkingSteps currentQuery in
  let w := setThinkingSteps (λ _, steps) w in
  let w := thinking_loop steps w in
  setTypingMessage (Some (typing_at env)) w.

(** Lines 67-229: the [try] block with the request, [catch] and
    [finally]. *)
Definition from_request (env : Env) (currentQuery : string) (w : World) : World :=
  let '(outcome, w) := request env currentQuery w in
  let w :=
    match outcome with
    | Normal botReply =>
        let botMessage := {| sender := bot; text := Structured botReply;
                             timestamp := replied_at env |} in
        let w := setMessages (λ prev, prev ++ [botMessage]) w in
        setThinkingSteps (λ _, []) w
    | Throw error =>
        let errorReply := error_response apology (message error) in
        let w := setMessages
                   (λ prev, prev ++ [{| sender := bot; text := Structured errorReply;
                                        timestamp := replied_at env |}]) w in
        setThinkingSteps (λ _, []) w
    end in
  (* finally *)
  let w := setLoading false w in
  setTypingMessage None w.

(** Lines 43-230, run against the state [ui w] the handler closes over. *)
Definition handleSubmit (env : Env) (w : World) : World :=
  let query := query (ui w) in
  let w := emit preventDefault w in
  (* [!query.trim()]: the empty string is the only falsy string *)
  if bool_decide (trim query = "") then w else
  let w := until_request env query w in
  from_request env query w.

(** ** The header line of the two renderers *)

(** [philosophers?.join(", ") || fallback], the text shown after
    "Consulted:" by [renderSynthesisResponse] (line 260, fallback
    "Ancient Philosophers") and by [renderPhilosophicalResponse] (line 306,
    fallback "Multiple philosophers"). *)
Definition consulted (philosophers : value) (fallback : string) : completion value :=
  match philosophers with
  | VUndefined | VJson JNull => Normal VUndefined
  | VJson (JArr elements) =>
      joined ← join ", " (map VJson elements);
      Normal (Str joined)
  | _ => Throw (TypeError "philosophers?.join is not a function")
  end ||| Normal (Str fallback).

(** ** Vocabulary of the statements *)

(** The value of [j.key] when the read does not throw. *)
Definition field (j : json) (key : string) : value :=
  match Get j key with Normal v => v | Throw _ => VUndefined end.

(** The object without its property [key]. *)
Fixpoint remove_property (key : string) (properties : list (string * json))
    : list (string * json) :=
  match properties with
  | [] => []
  | (k, v) :: rest =>
      if bool_decide (k = key) then remove_property key rest else (k, v) :: remove_property key rest
  end.

(** The section fields of a [reasoning_chain] entry and of a structured
    [synthesis]. *)
Definition step_fields : list string :=
  ["core_insight"; "reasoning_process"; "metacognitive_awareness";
   "socratic_catalyst"; "practical_application"; "connection_to_principles";
   "cognitive_stimulation"].

Definition synthesis_fields : list string :=
  ["integrated_wisdom"; "key_insights"; "practical_steps";
   "metacognitive_enhancement"; "reasoning_quality_assessment";
   "cognitive_bridges"; "transformative_elements"; "application_scenarios";
   "deepening_questions"; "metacognitive_prompts"; "dialectical_challenges";
   "synthesis_quality_score"; "cognitive_enhancement_elements"].

(** Data in which no array holds a [null] and no object has an own
    property [toString]: on such data no element read and no string
    conversion of the formatter can throw. *)
Fixpoint tame (j : json) : bool :=
  match j with
  | JArr elements =>
      forallb (λ x, match x with JNull => false | _ => tame x end) elements
  | JObj properties =>
      match own "toString" properties with Some _ => false | None => true end
      && forallb (λ p, tame p.2) properties
  | _ => true
  end.

Definition tame_value (v : value) : bool :=
  match v with VJson j => tame j | _ => true end.

(** Completion without a throw, and completion with a tame value. *)
Definition returns {A} (c : completion A) : Prop := ∃ a, c = Normal a.

Definition yields_tame (c : completion value) : Prop :=
  ∃ v, c = Normal v ∧ tame_value v = true.

(** The four variants of the specification, and the one a run of the
    [try] block ends with: a throw is caught and becomes the error reply. *)
Inductive Variant := Philosophical | Synthesis | RawFallback | ErrorVariant.

Definition variant (r : Reply) : Variant :=
  match r with
  | philosophical_response _ _ _ => Philosophical
  | synthesis_response _ _ => Synthesis
  | formatted_response _ => RawFallback
  | error_response _ _ => ErrorVariant
  end.

Definition delivered (outcome : completion Reply) : Reply :=
  match outcome with
  | Normal botReply => botReply
  | Throw error => error_response apology (message error)
  end.

(** What the [try] block of one run completes with. *)
Definition network_outcome (env : Env) : completion Reply :=
  match network env with
  | fetch_rejects error | json_rejects error => Throw error
  | json_resolves data => botReply data
  end.

(** The classification order as the specification words it, by presence of
    the fields. *)
Definition has_field (j : json) (key : string) : bool :=
  match j with
  | JObj properties => bool_decide (is_Some (own key properties))
  | _ => false
  end.

Definition spec_classification (data : json) : Variant :=
  if has_field data "reasoning_chain" && has_field data "synthesis" then Philosophical
  else if bool_decide (typeof (field data "synthesis") = "string") then Synthesis
  else RawFallback.

(** Number of timers still to be awaited once the request has been issued. *)
Fixpoint count_timers (t : list Event) : nat :=
  match t with
  | [] => 0
  | setTimeout _ :: rest => S (count_timers rest)
  | _ :: rest => count_timers rest
  end.

Fixpoint timers_after_fetch (t : list Event) : nat :=
  match t with
  | [] => 0
  | fetch _ _ _ :: rest => count_timers rest
  | _ :: rest => timers_after_fetch rest
  end.

End JS.

Infix "|||" := or_else (at level 50, left associativity).
Infix "&&&" := and_then (at level 40, left associativity).

(** A query made of white space only. *)
Fixpoint whitespace_only (s : string) : bool :=
  match s with
  | EmptyString => true
  | String c rest => is_white_space c && whitespace_only rest
  end.

(** ** A runtime for concrete evaluations: integral numbers, printed in
       decimal, and the ASCII part of the case mapping *)

Definition upper_ascii (c : ascii) : ascii :=
  let n := nat_of_ascii c in
  if bool_decide (97 ≤ n) && bool_decide (n ≤ 122) then ascii_of_nat (n - 32) else c.

Fixpoint upper_string (s : string) : string :=
  match s with
  | EmptyString => ""
  | String c rest => String (upper_ascii c) (upper_string rest)
  end.

#[global] Instance integer_runtime : JSRuntime := {|
  number := Z;
  number_ToBoolean := λ n, negb (bool_decide (n = 0%Z));
  number_ToString := pretty;
  number_isFinite := λ _, true;
  toUpperCase := upper_string
|}.

(** ** Bodies and runs used as concrete inputs *)

(** [{"synthesis": "Know thyself."}] *)
Definition scenario_A : json := JObj [("synthesis", JStr "Know thyself.")].

(** One entry for Socrates with a core insight, and a structured synthesis
    with its integrated wisdom only. *)
Definition scenario_B : json :=
  JObj [("reasoning_chain",
         JArr [JObj [("philosopher", JStr "Socrates");
                     ("core_insight", JStr "Question everything")]]);
        ("synthesis", JObj [("integrated_wisdom", JStr "Examine your life.")])].

(** [{"answer": 42, "tags": ["a", null]}] *)
Definition unrecognized : json :=
  JObj [("answer", JNum 42%Z); ("tags", JArr [JStr "a"; JNull])].

(** [{"reasoning_chain": [], "synthesis": ""}] *)
Definition present_but_empty : json :=
  JObj [("reasoning_chain", JArr []); ("synthesis", JStr "")].

(** [{"reasoning_chain": [null], "synthesis": "x"}] *)
Definition chain_of_null : json :=
  JObj [("reasoning_chain", JArr [JNull]); ("synthesis", JStr "x")].

(** [{"reasoning_chain": 5, "synthesis": "x"}] *)
Definition chain_not_array : json :=
  JObj [("reasoning_chain", JNum 5%Z); ("synthesis", JStr "x")].

(** [{"reasoning_chain": [], "synthesis": "Know thyself."}] *)
Definition empty_chain : json :=
  JObj [("reasoning_chain", JArr []); ("synthesis", JStr "Know thyself.")].

(** [{"reasoning_chain": [{"philosopher": "Socrates"}], "synthesis": "x"}] *)
Definition one_step_chain : json :=
  JObj [("reasoning_chain", JArr [JObj [("philosopher", JStr "Socrates")]]);
        ("synthesis", JStr "x")].

(** The component before a submission of [q], and a run in which the
    service answers [data]. *)
Definition idle (q : string) : World :=
  {| ui := {| query := q; messages := []; loading := false;
              thinkingSteps := []; typingMessage := None |};
     trace := [] |}.

Definition answers (data : json) : Env :=
  {| submitted_at := 1000%N; typing_at := 8200%N; replied_at := 8300%N;
     network := json_resolves data |}.

(** The lines of a formatted text. *)
Fixpoint split_lines (current : string) (s : string) : list string :=
  match s with
  | EmptyString => [current]
  | String c rest =>
      if bool_decide (nat_of_ascii c = 10) then current :: split_lines "" rest
      else split_lines (current +:+ String c "") rest
  end.

Definition lines (c : completion value) : list string :=
  match c with
  | Normal (VJson (JStr s)) => split_lines "" s
  | _ => []
  end.

(** * The rest of the file *)

Section Component.
Context `{JSRuntime}.

(** ** The stage loop, round by round *)

(** Round [i] of the loop of lines 57-63, by index as the source runs it. *)
Definition thinking_round (steps : list Stage) (i : nat) (w : World) : World :=
  match steps !! i with
  | Some step =>
      let w := emit (setTimeout 800) w in
      let w := updateThinkingStep (id step) completed w in
      if bool_decide (i < List.length steps - 1) then
        match steps !! (i + 1) with
        | Some next => updateThinkingStep (id next) thinking w
        | None => w
        end
      else w
  | None => w
  end.

(** The rounds [0 .. k-1]. *)
Fixpoint thinking_rounds (steps : list Stage) (k : nat) (w : World) : World :=
  match k with
  | 0 => w
  | S k' => thinking_round steps k' (thinking_rounds steps k' w)
  end.

(** [{ ...step, status }] *)
Definition with_status (s : Status) (step : Stage) : Stage :=
  {| id := id step; title := title step; description := description step; status := s |}.

(** The status of stage [i] once [k] rounds have run, [initial] being the
    status it was created with: done before [k], in progress at [k]. *)
Definition stage_status (k i : nat) (initial : Status) : Status :=
  if bool_decide (i < k) then completed
  else if bool_decide (i = k ∧ 0 < k) then thinking
  else initial.

(** ** The input field and what the component shows (lines 368-497) *)

(** [onChange={(e) => setQuery(e.target.value)}] *)
Definition onChange (typed : string) : World → World := setQuery typed.

(** [disabled={loading}] of the input, [disabled={loading || !query.trim()}]
    of the send button. *)
Definition input_disabled (st : AppState) : bool := loading st.

Definition send_disabled (st : AppState) : bool :=
  loading st || bool_decide (trim (query st) = "").

(** [messages.length === 0 && !loading], [thinkingSteps.length > 0] and
    [typingMessage]: the conditions under which the welcome screen, the
    thinking container and the typing indicator are rendered. *)
Definition welcome_screen (st : AppState) : bool :=
  bool_decide (List.length (messages st) = 0) && negb (loading st).

Definition thinking_container (st : AppState) : bool :=
  bool_decide (0 < List.length (thinkingSteps st)).

Definition typing_indicator (st : AppState) : bool :=
  match typingMessage st with Some _ => true | None => false end.

(** One exchange: the user types [turn.1] and submits, in a run whose
    environment is [turn.2]; a session is a sequence of exchanges. *)
Definition exchange (w : World) (turn : string * Env) : World :=
  handleSubmit turn.2 (onChange turn.1 w).

Definition session (turns : list (string * Env)) (w : World) : World :=
  foldl exchange w turns.

(** The turns of a session whose query passes the guard of the handler,
    and the messages they leave: the query as typed, then what the run
    delivers. *)
Definition submitted (turns : list (string * Env)) : list (string * Env) :=
  filter (λ turn, trim turn.1 ≠ "") turns.

Definition transcript (turns : list (string * Env)) : list Message :=
  turn ← submitted turns;
  [ {| sender := user; text := Text turn.1; timestamp := submitted_at turn.2 |};
    {| sender := bot; text := Structured (delivered (network_outcome turn.2));
       timestamp := replied_at turn.2 |} ].

(** ** The synthesis block of [renderPhilosophicalResponse] (lines 325-333) *)

(** What [{synthesis && typeof synthesis === 'string' && (...)}] puts in
    the tree: the block with the text; nothing for [false], [null],
    [undefined] and the empty string; the digits of a falsy number. *)
Inductive Child :=
| no_child
| text_child (s : string)
| integrated_wisdom (s : string).

Definition synthesis_child (synthesis : value) : Child :=
  if ToBoolean synthesis then
    match synthesis with
    | VJson (JStr s) => integrated_wisdom s
    | _ => no_child
    end
  else
    match synthesis with
    | VJson (JNum n) => text_child (number_ToString n)
    | _ => no_child
    end.

(** [response.error && <div>Technical details: {response.error}</div>]
    in [renderErrorResponse] (lines 271-286): the text of the details
    line, when there is one. *)
Definition error_details (reply : Reply) : option string :=
  match reply with
  | error_response _ error => if bool_decide (error = "") then None else Some error
  | _ => None
  end.

(** ** Rendering the messages (lines 236-335 and 429-444)

    What a message puts in its bubble.  The only expression of the
    renderers that can throw is the header line [philosophers?.join];
    the cards of a philosophical reply are kept as the object they are
    made from. *)
Inductive Bubble :=
| message_text (s : string)
| synthesis_bubble (names : value) (content : value)
| philosophical_bubble (names : value) (perspectives : gmap string string)
                       (synthesis : Child)
| error_bubble (content : string) (details : option string)
| raw_bubble (content : string).

(** Lines 255-270.  The header reads [response.philosophers?.join], and
    that is the expression the engine names when it throws. *)
Definition renderSynthesisResponse (philosophers content : value) : completion Bubble :=
  match consulted philosophers "Ancient Philosophers" with
  | Normal names => Normal (synthesis_bubble names content)
  | Throw _ => Throw (TypeError "response.philosophers?.join is not a function")
  end.

(** Lines 271-286. *)
Definition renderErrorResponse (content error : string) : completion Bubble :=
  Normal (error_bubble content (error_details (error_response content error))).

(** Lines 288-298. *)
Definition renderFormattedResponse (content : string) : completion Bubble :=
  Normal (raw_bubble content).

(** Lines 300-335. *)
Definition renderPhilosophicalResponse (philosophers : value)
    (responses : gmap string string) (synthesis : value) : completion Bubble :=
  names ← consulted philosophers "Multiple philosophers";
  Normal (philosophical_bubble names responses (synthesis_child synthesis)).

(** Lines 236-253: a string is a paragraph, an object is dispatched on its
    [type]. *)
Definition renderResponse (response : MessageText) : completion Bubble :=
  match response with
  | Text s => Normal (message_text s)
  | Structured (synthesis_response philosophers content) =>
      renderSynthesisResponse philosophers content
  | Structured (philosophical_response philosophers responses synthesis) =>
      renderPhilosophicalResponse philosophers responses synthesis
  | Structured (error_response content error) => renderErrorResponse content error
  | Structured (formatted_response content) => renderFormattedResponse content
  end.

(** What one render of [App] shows (lines 337-516).  The bubbles come from
    [messages.map] (lines 429-444), the one part of the tree that can
    throw; nothing catches a throw, so a render that throws shows
    nothing: React unmounts the component. *)
Record View := {
  shows_welcome : bool;
  shows_thinking : bool;
  shows_bubbles : list Bubble;
  shows_typing : bool;
  disables_input : bool;
  disables_send : bool
}.

Definition App (st : AppState) : completion View :=
  bubbles ← mapC (λ msg, renderResponse (text msg)) (messages st);
  Normal {| shows_welcome := welcome_screen st;
            shows_thinking := thinking_container st;
            shows_bubbles := bubbles;
            shows_typing := typing_indicator st;
            disables_input := input_disabled st;
            disables_send := send_disabled st |}.

(** A computation that throws nothing but a [TypeError] with a message. *)
Definition loud {A} (c : completion A) : Prop :=
  ∀ error, c = Throw error → ∃ m, error = TypeError m ∧ m ≠ "".

(** The bodies of the requests a trace issues, in order. *)
Definition requests (t : list Event) : list string :=
  omap (λ e, match e with fetch _ _ body => Some body | _ => None end) t.

(** A left inverse of [quote_chars].  It is no part of the component: the
    proof that quoting loses nothing of the query goes through it. *)
Definition hex_value (c : ascii) : nat :=
  let n := nat_of_ascii c in
  if bool_decide (n < 58) then n - 48 else n - 87.

Definition unescape (c : ascii) : ascii :=
  if bool_decide (c = "b"%char) then ascii_of_nat 8
  else if bool_decide (c = "t"%char) then ascii_of_nat 9
  else if bool_decide (c = "n"%char) then ascii_of_nat 10
  else if bool_decide (c = "f"%char) then ascii_of_nat 12
  else if bool_decide (c = "r"%char) then ascii_of_nat 13
  else c.

Fixpoint unquote_chars (s : string) : string :=
  match s with
  | EmptyString => ""
  | String c rest =>
      if bool_decide (nat_of_ascii c = 92) then
        match rest with
        | EmptyString => ""
        | String e rest' =>
            if bool_decide (e = "u"%char) then
              match rest' with
              | String _ (String _ (String x (String y rest''))) =>
                  String (ascii_of_nat (16 * hex_value x + hex_value y))
                         (unquote_chars rest'')
              | _ => ""
              end
            else String (unescape e) (unquote_chars rest')
        end
      else String c (unquote_chars rest)
  end.

(** What the callback of a [forEach] does to the object it fills when it
    makes one assignment, the same whatever the object holds, or throws. *)
Definition assigns_once
    (callback : gmap string string → completion (gmap string string)) : Prop :=
  (∃ key text, ∀ responses,
     callback responses = Normal (if bool_decide (key = "__proto__") then responses
                                  else <[key := text]> responses))
  ∨ (∃ error, ∀ responses, callback responses = Throw error).

(** [Object.keys(v)] *)
Definition Object_keys (v : value) : completion (list string) :=
  entries ← Object_entries v;
  Normal (entries.*1).

End Component.

(** ** The second [App] of the file: its classification (lines 590-606) *)

Module V2.
Section Classification.
Context `{JSRuntime}.

(** The [text] of its bot message: a string, or the object it builds from
    [data.responses]. *)
Inductive Reply :=
| plain (text : string)
| philosophical_response (philosophers responses synthesis : value)
                         (timestamp philosophers_consulted : value).

Definition botReply (data : json) : completion Reply :=
  synthesis ← Get data "synthesis";
  match synthesis with
  | VJson (JStr s) =>                          (* typeof ... === "string" *)
      Normal (plain s)
  | _ =>
      responses ← Get data "responses";
      if ToBoolean responses then
        philosophers ←
          Get data "philosophers"
          ||| (object ← Normal responses ||| Normal (VJson (JObj []));
               keys ← Object_keys object;
               Normal (VJson (JArr (JStr <$> keys))));
        timestamp ← Get data "timestamp";
        philosophers_consulted ← Get data "philosophers";
        Normal (philosophical_response philosophers responses synthesis
                  timestamp philosophers_consulted)
      else
        Normal (plain (JSON_stringify_2 data))
  end.

End Classification.
End V2.

(** ** The third [App] of the file: its classification (lines 1441-1447) *)

Module V3.
Section Classification.
Context `{JSRuntime}.

(** A string, or the [<pre>] element around the JSON text. *)
Inductive Reply :=
| plain (text : string)
| pre (text : string).

Definition botReply (data : json) : completion Reply :=
  synthesis ← Get data "synthesis";
  match synthesis with
  | VJson (JStr s) => Normal (plain s)         (* typeof ... === "string" *)
  | _ => Normal (pre (JSON_stringify_2 data))
  end.

End Classification.
End V3.

(** ** Further bodies used as concrete inputs *)

(** [{"reasoning_chain": [], "synthesis": 7}] *)
Definition number_synthesis : json :=
  JObj [("reasoning_chain", JArr []); ("synthesis", JNum 7%Z)].

(** [{"synthesis": "Know thyself.", "philosophers": "Plato"}] *)
Definition names_not_a_list : json :=
  JObj [("synthesis", JStr "Know thyself."); ("philosophers", JStr "Plato")].

(** [{"responses": {"Socrates": "a", "Laozi": "b"}}] *)
Definition perspectives_without_names : json :=
  JObj [("responses", JObj [("Socrates", JStr "a"); ("Laozi", JStr "b")])].

(** An entry that names no philosopher, and two entries for Socrates. *)
Definition unnamed_entry : json := JObj [("core_insight", JStr "Question everything")].

Definition first_entry : json :=
  JObj [("philosopher", JStr "Socrates"); ("core_insight", JStr "first")].

Definition second_entry : json :=
  JObj [("philosopher", JStr "Socrates"); ("core_insight", JStr "second")].

(** * Properties *)

Section Properties.
Context `{JSRuntime}.

(** ** Reading the parsed body *)

Lemma bind_Normal {A B} (a : A) (f : A → completion B) : (Normal a ≫= f) = f a.
Proof. reflexivity. Qed.

Lemma Get_field (j : json) (key : string) :
  j ≠ JNull → Get j key = Normal (field j key).
Proof. unfold field. destruct j; simpl; try done. Qed.

Lemma botReply_unfold (data : json) :
  data ≠ JNull →
  botReply data =
    if ToBoolean (field data "reasoning_chain") && ToBoolean (field data "synthesis")
    then
      responses ←
        match field data "reasoning_chain" with
        | VJson (JArr steps) => forEach steps format_step ∅
        | _ => Throw (TypeError "data.reasoning_chain.forEach is not a function")
        end;
      synthesisText ← format_synthesis (field data "synthesis");
      Normal (philosophical_response (field data "philosophers_consulted")
                responses synthesisText)
    else if bool_decide (typeof (field data "synthesis") = "string")
    then Normal (synthesis_response
                   (if ToBoolean (field data "philosophers")
                    then field data "philosophers" else default_philosophers)
                   (field data "synthesis"))
    else Normal (formatted_response (JSON_stringify_2 data)).
Proof.
  intros Hnn. unfold botReply, and_then, or_else.
  rewrite !(Get_field data) by done.
  destruct (ToBoolean (field data "reasoning_chain")) eqn:Hrc; simpl.
  - destruct (ToBoolean (field data "synthesis")) eqn:Hs; simpl.
    + reflexivity.
    + destruct (bool_decide _); [|done]. by destruct (ToBoolean (field data "philosophers")).
  - rewrite Hrc. simpl. destruct (bool_decide _); [|done].
    by destruct (ToBoolean (field data "philosophers")).
Qed.

(** ** Strings, the stage loop and one run of the handler *)

Lemma append_assoc (a b c : string) : (a +:+ b) +:+ c = a +:+ b +:+ c.
Proof.
  induction a as [|x a IH]; [done|].
  change (String x ((a +:+ b) +:+ c) = String x (a +:+ b +:+ c)). by rewrite IH.
Qed.

Lemma slice_0 (n : nat) (s : string) : slice 0 n s = str_prefix n s.
Proof. unfold slice. rewrite Nat.sub_0_r. by destruct s. Qed.

Lemma str_prefix_all (n : nat) (s : string) : str_length s ≤ n → str_prefix n s = s.
Proof.
  revert n. induction s as [|c s IH]; intros [|n] Hn; simpl in *; try done; try lia.
  f_equal. apply IH. lia.
Qed.

Lemma str_prefix_length (n : nat) (s : string) :
  n ≤ str_length s → str_length (str_prefix n s) = n.
Proof.
  revert n. induction s as [|c s IH]; intros [|n] Hn; simpl in *; try done; try lia.
  f_equal. apply IH. lia.
Qed.

Lemma trimStart_whitespace (s : string) : whitespace_only s = true → trimStart s = "".
Proof.
  induction s as [|c s IH]; simpl; [done|].
  intros [Hc Hs]%andb_true_iff. rewrite Hc. auto.
Qed.

Lemma trimStart_first (s : string) :
  trimStart s = "" ∨ ∃ c rest, trimStart s = String c rest ∧ is_white_space c = false.
Proof.
  induction s as [|c s IH]; simpl; [by left|].
  destruct (is_white_space c) eqn:Hc; [done|]. right. eauto.
Qed.

Lemma trimEnd_nonempty (c : ascii) (rest : string) :
  is_white_space c = false → trimEnd (String c rest) ≠ "".
Proof. intros Hc. simpl. by rewrite Hc. Qed.

Lemma trimStart_empty (s : string) : trimStart s = "" → whitespace_only s = true.
Proof.
  induction s as [|c s IH]; simpl; [done|].
  destruct (is_white_space c); [auto|done].
Qed.

Lemma trim_blank (s : string) : trim s = "" ↔ whitespace_only s = true.
Proof.
  unfold trim. split.
  - intros Ht. apply trimStart_empty.
    destruct (trimStart_first s) as [|(c & rest & Hs & Hc)]; [done|].
    rewrite Hs in Ht. by apply trimEnd_nonempty in Ht.
  - intros Hs. by rewrite trimStart_whitespace.
Qed.

(** The loop leaves every cell but [thinkingSteps] alone and awaits one
    timer per stage. *)
Lemma thinking_loop_frame (steps : list Stage) (w : World) :
  query (ui (thinking_loop steps w)) = query (ui w)
  ∧ messages (ui (thinking_loop steps w)) = messages (ui w)
  ∧ loading (ui (thinking_loop steps w)) = loading (ui w)
  ∧ typingMessage (ui (thinking_loop steps w)) = typingMessage (ui w)
  ∧ trace (thinking_loop steps w)
    = trace w ++ replicate (List.length steps) (setTimeout 800).
Proof.
  revert w. induction steps as [|step later IH]; intros w; simpl.
  - by rewrite app_nil_r.
  - destruct (IH (match later with
                  | [] => updateThinkingStep (id step) completed (emit (setTimeout 800) w)
                  | next :: _ => updateThinkingStep (id next) thinking
                      (updateThinkingStep (id step) completed (emit (setTimeout 800) w))
                  end)) as (-> & -> & -> & -> & ->).
    destruct later; simpl; by rewrite <- app_assoc.
Qed.

Lemma handleSubmit_run (env : Env) (w : World) :
  trim (query (ui w)) ≠ "" →
  ui (handleSubmit env w)
  = {| query := "";
       messages := messages (ui w)
         ++ [ {| sender := user; text := Text (query (ui w));
                 timestamp := submitted_at env |};
              {| sender := bot; text := Structured (delivered (network_outcome env));
                 timestamp := replied_at env |} ];
       loading := false;
       thinkingSteps := [];
       typingMessage := None |}
  ∧ trace (handleSubmit env w)
    = trace w ++ [preventDefault] ++ replicate 9 (setTimeout 800)
      ++ fetch "http://localhost:8000/ask" "POST"
               (JSON_stringify (JObj [("text", JStr (query (ui w)))]))
         :: match network env with fetch_rejects _ => [] | _ => [res_json] end.
Proof.
  intros Hq. unfold handleSubmit, from_request, until_request.
  rewrite bool_decide_false by done.
  set (steps := simulateThinkingSteps _).
  set (w1 := setThinkingSteps _ _).
  destruct (thinking_loop_frame steps w1) as (Hqu & Hm & Hl & Ht & Htr).
  unfold request, network_outcome.
  destruct (network env) as [e|e|data]; simpl.
  all: try destruct (botReply data); simpl.
  all: rewrite ?Hm, ?Htr; simpl; rewrite <- ?app_assoc; simpl; done.
Qed.

(** ** Tame data never makes the formatter throw *)

Lemma json_ind' (P : json → Prop) :
  P JNull → (∀ b, P (JBool b)) → (∀ n, P (JNum n)) → (∀ s, P (JStr s)) →
  (∀ elements, Forall P elements → P (JArr elements)) →
  (∀ properties, Forall (λ p, P p.2) properties → P (JObj properties)) →
  ∀ j, P j.
Proof.
  intros HNull HBool HNum HStr HArr HObj.
  fix IH 1. intros [ | b | n | s | elements | properties].
  - exact HNull.
  - apply HBool.
  - apply HNum.
  - apply HStr.
  - apply HArr. revert elements. fix IHl 1.
    intros [|x l]; constructor; [apply IH | apply IHl].
  - apply HObj. revert properties. fix IHl 1.
    intros [|[k x] l]; constructor; [apply IH | apply IHl].
Qed.

Lemma returns_Normal {A} (a : A) : returns (Normal a).
Proof. by exists a. Qed.

Lemma yields_tame_Normal (v : value) : tame_value v = true → yields_tame (Normal v).
Proof. by exists v. Qed.

Lemma yields_tame_Str (s : string) : yields_tame (Normal (Str s)).
Proof. by exists (Str s). Qed.

Lemma bind_returns {A B} (c : completion A) (f : A → completion B) :
  returns c → (∀ a, returns (f a)) → returns (c ≫= f).
Proof. intros [a ->] Hf. apply Hf. Qed.

Lemma bind_tame {B} (c : completion value) (f : value → completion B) :
  yields_tame c → (∀ v, tame_value v = true → returns (f v)) → returns (c ≫= f).
Proof. intros (v & -> & Hv) Hf. by apply Hf. Qed.

Lemma mapC_returns {A B} (f : A → completion B) (xs : list A) :
  Forall (λ x, returns (f x)) xs → returns (mapC f xs).
Proof.
  induction 1 as [|x xs [y Hy] _ [ys Hys]]; simpl; [by eexists|].
  rewrite Hy, Hys. by eexists.
Qed.

Lemma mapC_yields_tame {A} (f : A → completion value) (xs : list A) :
  Forall (λ x, yields_tame (f x)) xs →
  ∃ ys, mapC f xs = Normal ys ∧ Forall (λ y, tame_value y = true) ys.
Proof.
  induction 1 as [|x xs (y & Hy & Hty) _ (ys & Hys & Htys)]; simpl; [by eexists|].
  rewrite Hy, Hys. eauto.
Qed.

Lemma forEach_returns {A S} (xs : list A) (body : S → A → completion S) (acc : S) :
  Forall (λ x, ∀ acc, returns (body acc x)) xs → returns (forEach xs body acc).
Proof.
  intros Hxs. revert acc. induction Hxs as [|x xs Hx _ IH]; intros acc; simpl.
  - by eexists.
  - destruct (Hx acc) as [acc' ->]. apply IH.
Qed.

Lemma tame_elements (elements : list json) :
  tame (JArr elements) = true →
  Forall (λ x, x ≠ JNull ∧ tame x = true) elements.
Proof.
  simpl. intros Hall. apply Forall_forall. intros x Hx.
  rewrite forallb_forall in Hall. specialize (Hall x).
  rewrite <- list_elem_of_In in Hall. specialize (Hall Hx). by destruct x.
Qed.

Lemma tame_properties (properties : list (string * json)) :
  tame (JObj properties) = true →
  own "toString" properties = None ∧ Forall (λ p, tame p.2 = true) properties.
Proof.
  simpl. intros [Hts Hall]%andb_true_iff. split.
  - by destruct (own "toString" properties).
  - apply Forall_forall. intros p Hp. rewrite forallb_forall in Hall.
    apply Hall. by apply list_elem_of_In.
Qed.

Lemma own_elem (key : string) (properties : list (string * json)) (v : json) :
  own key properties = Some v → (key, v) ∈ properties.
Proof.
  induction properties as [|[k x] rest IH]; simpl; [done|].
  case_bool_decide as Hk.
  - intros [= ->]. subst. left.
  - intros Hv. right. auto.
Qed.

Lemma tame_own (key : string) (properties : list (string * json)) (v : json) :
  tame (JObj properties) = true → own key properties = Some v → tame v = true.
Proof.
  intros [_ Hall]%tame_properties Hown%own_elem.
  rewrite Forall_forall in Hall. by apply (Hall _ Hown).
Qed.

Lemma ToString_json_tame (j : json) : tame j = true → returns (ToString_json j).
Proof.
  induction j as [ | b | n | s | elements IH | properties _] using json_ind';
    intros Ht; try (by eexists).
  - simpl. apply bind_returns; [|intros; by eexists].
    apply mapC_returns. apply tame_elements in Ht.
    rewrite Forall_forall in IH, Ht |- *. intros x Hx.
    destruct (Ht x Hx) as [Hnn Htx]. specialize (IH x Hx Htx).
    by destruct x.
  - apply tame_properties in Ht as [Hts _]. simpl. rewrite Hts. by eexists.
Qed.

Lemma ToString_tame (v : value) : tame_value v = true → returns (ToString v).
Proof.
  destruct v; simpl; [by eexists| apply ToString_json_tame |by eexists].
Qed.

Lemma Get_tame (j : json) (key : string) :
  j ≠ JNull → tame j = true → yields_tame (Get j key).
Proof.
  intros Hnn Ht. destruct j; simpl; try done; try (by eexists VUndefined).
  - case_bool_decide; by eexists.
  - destruct (own key properties) as [v|] eqn:Hown; [|by eexists].
    exists v. split; [done|]. simpl. eauto using tame_own.
Qed.

Lemma GetOptional_tame (v : value) (key : string) :
  tame_value v = true → yields_tame (GetOptional v key).
Proof.
  destruct v as [|[]|]; intros Ht; unfold GetOptional;
    try (by eexists VUndefined); by apply Get_tame.
Qed.

Lemma or_else_tame (a b : completion value) :
  yields_tame a → yields_tame b → yields_tame (a ||| b).
Proof.
  intros (x & -> & Hx) Hb. unfold or_else. destruct (ToBoolean x); [by exists x|done].
Qed.

Lemma join_tame (sep : string) (xs : list value) :
  Forall (λ x, tame_value x = true) xs → returns (join sep xs).
Proof.
  intros Hxs. unfold join. apply bind_returns; [|intros; by eexists].
  apply mapC_returns. eapply Forall_impl; [done|]. intros x Hx; simpl in *.
  destruct x as [|[]|]; try (by eexists); by apply ToString_tame.
Qed.

Lemma value_cases_tame (v : value) :
  tame_value v = true →
  (∃ elements, v = VJson (JArr elements)
     ∧ Forall (λ x, x ≠ JNull ∧ tame x = true) elements)
  ∨ (isArray v = false).
Proof.
  destruct v as [|[]|]; intros Ht; try (by right).
  left. eexists. split; [done|]. by apply tame_elements.
Qed.

Lemma format_reasoning_entry_returns (text : string) (rp : json) :
  rp ≠ JNull → tame rp = true → returns (format_reasoning_entry text rp).
Proof.
  intros Hnn Ht. unfold format_reasoning_entry.
  case_bool_decide.
  - apply bind_tame; [repeat apply or_else_tame; auto using Get_tame, yields_tame_Str|].
    intros label Hlabel. apply bind_returns; [by apply ToString_tame|]. intros label'.
    apply bind_tame; [repeat apply or_else_tame; auto using Get_tame, yields_tame_Str|].
    intros body Hbody. apply bind_returns; [by apply ToString_tame|]. intros body'.
    apply returns_Normal.
  - apply bind_returns; [by apply ToString_tame|]. intros. apply returns_Normal.
Qed.

Lemma mapped_or_None_tame (x : value) (key : string) :
  tame_value x = true → yields_tame (mapped_or_None x key).
Proof.
  intros Ht. destruct (value_cases_tame x Ht) as [(elements & -> & Hel)|Hna].
  - unfold mapped_or_None.
    destruct (mapC_yields_tame (λ e : json, Get e key ||| Normal (VJson e)) elements)
      as (ys & -> & Hys).
    { eapply Forall_impl; [exact Hel|]. intros e [Hnn He]; simpl.
      apply or_else_tame; [by apply Get_tame|by apply yields_tame_Normal]. }
    rewrite bind_Normal. destruct (join_tame LF ys Hys) as [joined ->].
    apply yields_tame_Str.
  - assert (mapped_or_None x key = Normal x ||| Normal (Str "None")) as ->.
    { by destruct x as [|[]|]. }
    apply or_else_tame; [by apply yields_tame_Normal|apply yields_tame_Str].
Qed.

Lemma reasoning_section_returns (reasoning_process : value) (text : string) :
  tame_value reasoning_process = true →
  returns match reasoning_process with
          | VJson (JArr entries) => forEach entries format_reasoning_entry text
          | _ => Normal (text +:+ "- No reasoning process provided" +:+ LF)
          end.
Proof.
  intros Ht. destruct (value_cases_tame _ Ht) as [(entries & -> & Hel)|Hna].
  - apply forEach_returns. eapply Forall_impl; [exact Hel|].
    intros rp [? ?] acc. by apply format_reasoning_entry_returns.
  - destruct reasoning_process as [|[]|]; try done; apply returns_Normal.
Qed.

Lemma joined_or_None_tame (x : value) :
  tame_value x = true → yields_tame (joined_or_None x).
Proof.
  intros Ht. destruct (value_cases_tame x Ht) as [(elements & -> & Hel)|Hna].
  - unfold joined_or_None.
    destruct (join_tame LF (map VJson elements)) as [joined ->].
    { apply Forall_fmap. eapply Forall_impl; [exact Hel|]. by intros e [_ He]. }
    apply yields_tame_Str.
  - assert (joined_or_None x = Normal x ||| Normal (Str "None")) as ->.
    { by destruct x as [|[]|]. }
    apply or_else_tame; [by apply yields_tame_Normal|apply yields_tame_Str].
Qed.

Lemma bullets_returns (list : value) (entry : json → completion value)
    (none synthesisText : string) :
  tame_value list = true →
  (∀ x, x ≠ JNull → tame x = true → yields_tame (entry x)) →
  returns (bullets list entry none synthesisText).
Proof.
  intros Ht Hentry. destruct (value_cases_tame _ Ht) as [(elements & -> & Hel)|Hna].
  - apply forEach_returns. eapply Forall_impl; [exact Hel|].
    intros x [Hnn Hx] acc; simpl.
    apply bind_tame; [by apply Hentry|]. intros v Hv.
    apply bind_returns; [by apply ToString_tame|]. intros. apply returns_Normal.
  - destruct list as [|[]|]; try done; apply returns_Normal.
Qed.

Lemma chars_from_tame (i : nat) (s : string) :
  Forall (λ entry, tame_value entry.2 = true) (chars_from i s).
Proof. revert i. induction s; intros i; simpl; constructor; auto. Qed.

Lemma Object_entries_tame (v : value) :
  tame_value v = true → ToBoolean v = true →
  ∃ entries, Object_entries v = Normal entries
             ∧ Forall (λ entry, tame_value entry.2 = true) entries.
Proof.
  destruct v as [|[ | b | n | s | elements | properties]|]; intros Ht Hb;
    try done; simpl; eexists; (split; [done|]); try by constructor.
  - apply chars_from_tame.
  - apply tame_elements in Ht. apply Forall_forall.
    intros [k x] (i & y & [= -> ->] & Hy)%elem_of_lookup_imap; simpl.
    apply list_elem_of_lookup_2 in Hy. rewrite Forall_forall in Ht.
    by apply Ht.
  - apply tame_properties in Ht as [_ Ht]. apply Forall_fmap.
    eapply Forall_impl; [exact Ht|]. by intros [k x].
Qed.

Lemma enhancement_section_returns (metacognitiveEnhancement : value) (text : string) :
  tame_value metacognitiveEnhancement = true →
  returns match metacognitiveEnhancement with
          | VJson (JArr _) =>
              bullets metacognitiveEnhancement
                (λ me, Get me "reflection" ||| Get me "self-awareness"
                       ||| Normal (VJson me) ||| Normal (Str "No enhancement provided"))
                "" text
          | VJson (JStr s) => Normal (text +:+ "- " +:+ s +:+ LF)
          | VJson (JObj _ as me) => Normal (text +:+ "- " +:+ JSON_stringify me +:+ LF)
          | _ => Normal (text +:+ "- No metacognitive enhancement provided" +:+ LF)
          end.
Proof.
  intros Ht.
  destruct metacognitiveEnhancement as [|[ | b | n | s | elements | properties]|];
    try apply returns_Normal.
  apply bullets_returns; [done|]. intros x Hnn Hx.
  repeat apply or_else_tame; auto using Get_tame, yields_tame_Str, yields_tame_Normal.
Qed.

Lemma challenges_section_returns (dialectical_challenges : value) (text : string) :
  tame_value dialectical_challenges = true →
  returns (if ToBoolean dialectical_challenges then
             entries ← Object_entries dialectical_challenges;
             forEach entries
               (λ synthesisText entry,
                  v ← ToString entry.2;
                  Normal (synthesisText +:+ "- " +:+ capitalize entry.1 +:+ ": "
                          +:+ v +:+ LF))
               text
           else Normal (text +:+ "- No dialectical challenges provided" +:+ LF)).
Proof.
  intros Ht. destruct (ToBoolean dialectical_challenges) eqn:Hb; [|apply returns_Normal].
  destruct (Object_entries_tame _ Ht Hb) as (entries & -> & Hentries).
  rewrite bind_Normal. apply forEach_returns.
  eapply Forall_impl; [exact Hentries|]. intros entry Hentry acc; simpl.
  apply bind_returns; [by apply ToString_tame|]. intros. apply returns_Normal.
Qed.

(** One proof step through a [bind]: the bound computation completes, with
    a tame value where it is a value. *)
Ltac step_through :=
  first
    [ apply returns_Normal
    | apply bind_tame;
        [ first [ by apply mapped_or_None_tame
                | by apply joined_or_None_tame
                | repeat apply or_else_tame;
                  auto using Get_tame, GetOptional_tame, yields_tame_Str,
                             yields_tame_Normal ]
        | intros ? ? ]
    | apply bind_returns;
        [ first [ by apply ToString_tame
                | by apply reasoning_section_returns
                | by apply enhancement_section_returns
                | by apply challenges_section_returns
                | apply bullets_returns; [done|];
                  intros ? ? ?; repeat apply or_else_tame;
                  auto using Get_tame, yields_tame_Str, yields_tame_Normal ]
        | intros ? ] ].

Lemma format_step_returns (responses : gmap string string) (step : json) :
  step ≠ JNull → tame step = true → returns (format_step responses step).
Proof. intros Hnn Ht. unfold format_step. repeat step_through. Qed.

Lemma format_synthesis_returns (synthesis : value) :
  tame_value synthesis = true → ToBoolean synthesis = true →
  returns (format_synthesis synthesis).
Proof.
  intros Ht Hb. unfold format_synthesis.
  case_bool_decide as Hobj.
  - assert (∃ j, synthesis = VJson j ∧ j ≠ JNull ∧ tame j = true) as (j & -> & Hnn & Hj).
    { destruct synthesis as [|[]|]; try done; eauto. }
    repeat step_through.
  - unfold or_else. rewrite Hb. apply returns_Normal.
Qed.

Lemma field_tame (data : json) (key : string) :
  tame data = true → tame_value (field data key) = true.
Proof.
  intros Ht. destruct data; try done.
  - unfold field; simpl. by case_bool_decide.
  - destruct (Get_tame (JObj properties) key) as (v & Hv & Htv); [done..|].
    unfold field. by rewrite Hv.
Qed.

Lemma forEach_format_step_returns (steps : list json) (responses : gmap string string) :
  tame (JArr steps) = true → returns (forEach steps format_step responses).
Proof.
  intros Ht%tame_elements. apply forEach_returns.
  eapply Forall_impl; [exact Ht|]. intros step [? ?] acc.
  by apply format_step_returns.
Qed.

Lemma botReply_not_error (data : json) (reply : Reply) :
  botReply data = Normal reply → variant reply ≠ ErrorVariant.
Proof.
  intros Hr. assert (data ≠ JNull) as Hnn by (intros ->; discriminate Hr).
  rewrite botReply_unfold in Hr by done.
  destruct (_ && _).
  - destruct (match field data "reasoning_chain" with
              | VJson (JArr steps) => forEach steps format_step ∅
              | _ => Throw _ end); [|done].
    rewrite bind_Normal in Hr.
    destruct (format_synthesis _); [|done]. by injection Hr as <-.
  - destruct (bool_decide _); by injection Hr as <-.
Qed.

Lemma botReply_returns (data : json) :
  data ≠ JNull →
  (ToBoolean (field data "reasoning_chain") && ToBoolean (field data "synthesis") = true →
   isArray (field data "reasoning_chain") = true ∧ tame data = true) →
  returns (botReply data).
Proof.
  intros Hnn Hphil. rewrite botReply_unfold by done.
  destruct (_ && _) eqn:Hboth.
  - destruct Hphil as [Harr Ht]; [done|].
    apply andb_true_iff in Hboth as [_ Hsyn].
    pose proof (field_tame data "reasoning_chain" Ht) as Hrc.
    destruct (field data "reasoning_chain") as [|[ | | | |steps| ]|]; try done.
    apply bind_returns; [by apply forEach_format_step_returns|]. intros responses.
    apply bind_returns; [|intros; apply returns_Normal].
    apply format_synthesis_returns; [by apply field_tame|done].
  - destruct (bool_decide _); apply returns_Normal.
Qed.

(** ** A falsy property reads like a missing one *)

Lemma own_remove (key k : string) (properties : list (string * json)) :
  own k (remove_property key properties) = if bool_decide (k = key) then None else own k properties.
Proof.
  induction properties as [|[k' v] rest IH]; simpl; [by case_bool_decide|].
  repeat (case_bool_decide; simpl; subst); try done.
Qed.

Lemma Get_remove_eq (key : string) (properties : list (string * json)) :
  Get (JObj (remove_property key properties)) key = Normal VUndefined.
Proof. simpl. rewrite own_remove. by rewrite bool_decide_true. Qed.

Lemma Get_remove_ne (key k : string) (properties : list (string * json)) :
  k ≠ key → Get (JObj (remove_property key properties)) k = Get (JObj properties) k.
Proof. intros Hk. simpl. rewrite own_remove. by rewrite bool_decide_false. Qed.

Lemma Get_own (key : string) (properties : list (string * json)) (v : json) :
  own key properties = Some v → Get (JObj properties) key = Normal (VJson v).
Proof. intros Hv. simpl. by rewrite Hv. Qed.

Lemma or_else_falsy (x : value) (b : completion value) :
  ToBoolean x = false → Normal x ||| b = b.
Proof. unfold or_else. by intros ->. Qed.

Lemma mapped_or_None_falsy (x : value) (key : string) :
  ToBoolean x = false → mapped_or_None x key = Normal (Str "None").
Proof.
  intros Hx. unfold mapped_or_None, or_else.
  destruct x as [|[]|]; simpl in *; try done; by rewrite Hx.
Qed.

Lemma joined_or_None_falsy (x : value) :
  ToBoolean x = false → joined_or_None x = Normal (Str "None").
Proof.
  intros Hx. unfold joined_or_None, or_else.
  destruct x as [|[]|]; simpl in *; try done; by rewrite Hx.
Qed.

Lemma bullets_falsy (x : value) (entry : json → completion value)
    (none text : string) :
  ToBoolean x = false → bullets x entry none text = Normal (text +:+ none +:+ LF).
Proof. intros Hx. by destruct x as [|[]|]. Qed.

Lemma integrated_wisdom_falsy (x : value) (dflt : completion value) :
  ToBoolean x = false →
  GetOptional x "unified_insight_combining_all_perspectives" ||| Normal x ||| dflt = dflt.
Proof.
  intros Hx. unfold GetOptional, or_else.
  destruct x as [|[]|]; simpl in *; try done; by rewrite ?Hx.
Qed.

Lemma challenges_section_falsy (x : value) (text : string) :
  ToBoolean x = false →
  (if ToBoolean x then
     entries ← Object_entries x;
     forEach entries
       (λ synthesisText entry,
          v ← ToString entry.2;
          Normal (synthesisText +:+ "- " +:+ capitalize entry.1 +:+ ": " +:+ v +:+ LF))
       text
   else Normal (text +:+ "- No dialectical challenges provided" +:+ LF))
  = Normal (text +:+ "- No dialectical challenges provided" +:+ LF).
Proof. by intros ->. Qed.

Lemma bind_Normal_l {A B} (a : A) (f : A → completion B) (r : completion B) :
  f a = r → Normal a ≫= f = r.
Proof. done. Qed.

Lemma bind_Normal_r {A B} (a : A) (f : A → completion B) (l : completion B) :
  l = f a → l = Normal a ≫= f.
Proof. done. Qed.

Lemma bind_congr {A B} (c1 c2 : completion A) (f1 f2 : A → completion B) :
  c1 = c2 → (∀ a, f1 a = f2 a) → c1 ≫= f1 = c2 ≫= f2.
Proof. intros -> Hf. destruct c2; [apply Hf|done]. Qed.

Lemma bind_both {A B} (c1 c2 : completion A) (a1 a2 : A) (f1 f2 : A → completion B) :
  c1 = Normal a1 → c2 = Normal a2 → f1 a1 = f2 a2 → c1 ≫= f1 = c2 ≫= f2.
Proof. by intros -> ->. Qed.

Lemma falsy_cases (v : json) :
  ToBoolean v = false →
  v = JNull ∨ v = JBool false ∨ v = JStr "" ∨ ∃ n, v = JNum n.
Proof.
  destruct v as [ |[]| n | s | | ]; simpl; try done; eauto 6.
  case_bool_decide; [subst; eauto|done].
Qed.

(** Two runs of a formatter, on an object and on the object without one
    falsy property [key], walked in lock step, one [bind] at a time:
    [Hown] is what the first run reads at [key].  Where a section reads
    [key], both runs fall back to its placeholder. *)
Ltac same_section Hown :=
  lazymatch goal with
  | |- ?c = ?c => reflexivity
  | |- _ =>
      rewrite ?Hown, ?Get_remove_eq, ?Get_remove_ne by discriminate;
      rewrite ?integrated_wisdom_falsy, ?or_else_falsy, ?mapped_or_None_falsy,
              ?joined_or_None_falsy, ?bullets_falsy, ?challenges_section_falsy by done;
      reflexivity
  end.

Ltac lock_step Hown :=
  repeat (cbv beta zeta;
          lazymatch goal with
          | |- (Normal ?a ≫= ?f) = ?r => refine (bind_Normal_l a f r _)
          | |- ?l = (Normal ?a ≫= ?f) => refine (bind_Normal_r a f l _)
          | |- (Get ?o ?k ≫= ?f1) = (Get ?o' ?k ≫= ?f2) =>
              lazymatch type of Hown with
              | Get _ k = _ =>
                  refine (bind_both (Get o k) (Get o' k) _ _ f1 f2
                            Hown (Get_remove_eq _ _) _)
              | _ =>
                  refine (bind_congr (Get o k) (Get o' k) f1 f2 _ _);
                  [ symmetry; apply Get_remove_ne; discriminate | intros ? ]
              end
          | |- (?c1 ≫= ?f1) = (?c2 ≫= ?f2) =>
              refine (bind_congr c1 c2 f1 f2 _ _); [same_section Hown | intros ?]
          | |- ?c = ?c => reflexivity
          end).

Lemma format_step_falsy (responses : gmap string string)
    (properties : list (string * json)) (key : string) (v : json) :
  key ∈ step_fields → own key properties = Some v → ToBoolean v = false →
  format_step responses (JObj properties)
  = format_step responses (JObj (remove_property key properties)).
Proof.
  intros Hkey. unfold step_fields in Hkey. set_unfold in Hkey.
  intros Hown%Get_own Hv. unfold format_step.
  destruct (falsy_cases v Hv) as [->|[->|[->|[n ->]]]].
  all: destruct_or!; subst key; lock_step Hown.
Qed.

Lemma format_synthesis_falsy (properties : list (string * json)) (key : string) (v : json) :
  key ∈ synthesis_fields → own key properties = Some v → ToBoolean v = false →
  (key = "metacognitive_enhancement" → v ≠ JStr "") →
  format_synthesis (JObj properties) = format_synthesis (JObj (remove_property key properties)).
Proof.
  intros Hkey. unfold synthesis_fields in Hkey. set_unfold in Hkey.
  intros Hown%Get_own Hv Hme. unfold format_synthesis.
  rewrite !(bool_decide_true (typeof _ = "object")) by reflexivity.
  destruct (falsy_cases v Hv) as [->|[->|[->|[n ->]]]].
  all: destruct_or!; subst key;
       try (exfalso; apply Hme; reflexivity); lock_step Hown.
Qed.

(** ** The claims *)

(** C1 (as amended).  The classifier completes without a throw, with one of
    the Philosophical, Synthesis and RawFallback variants, on every parsed
    body other than [null] whose Philosophical branch, when it is taken,
    meets a [reasoning_chain] that is an array inside a body where no array
    holds a [null] and no object has an own property [toString]. *)
Theorem classifier_completes (data : json) :
  data ≠ JNull →
  (ToBoolean (field data "reasoning_chain") && ToBoolean (field data "synthesis") = true →
   isArray (field data "reasoning_chain") = true ∧ tame data = true) →
  ∃ reply, botReply data = Normal reply
           ∧ delivered (botReply data) = reply
           ∧ variant reply ≠ ErrorVariant.
Proof.
  intros Hnn Hphil. destruct (botReply_returns data Hnn Hphil) as [reply Hreply].
  exists reply. rewrite Hreply. eauto using botReply_not_error.
Qed.

(** C2 (as amended).  On every parsed body other than [null] the first
    matching rule decides: with [reasoning_chain] and [synthesis] both
    truthy the Philosophical branch runs and ends in the Philosophical
    variant or in a throw, and it is the Philosophical variant when
    [reasoning_chain] is an array and the body is tame; otherwise a
    [synthesis] of type string gives the Synthesis variant holding it;
    otherwise the RawFallback variant holds
    [JSON.stringify(data, null, 2)]. *)
Theorem classification_order (data : json) :
  data ≠ JNull →
  let both := ToBoolean (field data "reasoning_chain")
              && ToBoolean (field data "synthesis") in
  (both = true →
     ((∃ philosophers responses synthesis,
         botReply data = Normal (philosophical_response philosophers responses synthesis))
      ∨ (∃ error, botReply data = Throw error))
     ∧ (isArray (field data "reasoning_chain") = true → tame data = true →
        ∃ philosophers responses synthesis,
          botReply data = Normal (philosophical_response philosophers responses synthesis)))
  ∧ (both = false → typeof (field data "synthesis") = "string" →
     ∃ philosophers,
       botReply data = Normal (synthesis_response philosophers (field data "synthesis")))
  ∧ (both = false → typeof (field data "synthesis") ≠ "string" →
     botReply data = Normal (formatted_response (JSON_stringify_2 data))).
Proof.
  intros Hnn both.
  assert (both = true →
          (∃ philosophers responses synthesis,
             botReply data = Normal (philosophical_response philosophers responses synthesis))
          ∨ (∃ error, botReply data = Throw error)) as Hbranch.
  { rewrite botReply_unfold by done. fold both. intros ->.
    destruct (match field data "reasoning_chain" with
              | VJson (JArr steps) => forEach steps format_step ∅
              | _ => Throw _ end) as [responses|error]; [|by eauto].
    rewrite bind_Normal. destruct (format_synthesis _) as [synthesis|error]; by eauto. }
  split; [|split].
  - intros Hboth. split; [by apply Hbranch|]. intros Harr Ht.
    destruct (botReply_returns data Hnn) as [reply Hreply]; [done|].
    destruct (Hbranch Hboth) as [?|[error Herror]]; [done|congruence].
  - rewrite botReply_unfold by done. fold both.
    intros -> Hstr. rewrite bool_decide_true by done. eauto.
  - rewrite botReply_unfold by done. fold both.
    intros -> Hstr. by rewrite bool_decide_false.
Qed.

(** C3 (as amended).  The Synthesis variant carries the literal list
    ["Ancient Philosophers"] when [philosophers] is missing or falsy.  The
    Philosophical variant carries [data.philosophers_consulted] as it is:
    when that is missing the variant is built with [undefined], and its
    renderer then shows the literal text "Multiple philosophers". *)
Theorem philosophers_field (data : json) :
  data ≠ JNull →
  let both := ToBoolean (field data "reasoning_chain")
              && ToBoolean (field data "synthesis") in
  (both = false → typeof (field data "synthesis") = "string" →
   ToBoolean (field data "philosophers") = false →
   botReply data
   = Normal (synthesis_response default_philosophers (field data "synthesis")))
  ∧ (∀ philosophers responses synthesis,
       botReply data = Normal (philosophical_response philosophers responses synthesis) →
       philosophers = field data "philosophers_consulted")
  ∧ (both = true → isArray (field data "reasoning_chain") = true → tame data = true →
     field data "philosophers_consulted" = VUndefined →
     ∃ responses synthesis,
       botReply data = Normal (philosophical_response VUndefined responses synthesis)
       ∧ consulted VUndefined "Multiple philosophers"
         = Normal (Str "Multiple philosophers")).
Proof.
  intros Hnn both.
  assert (∀ philosophers responses synthesis,
            botReply data = Normal (philosophical_response philosophers responses synthesis) →
            philosophers = field data "philosophers_consulted") as Hphil.
  { intros philosophers responses synthesis. rewrite botReply_unfold by done.
    destruct (_ && _).
    - destruct (match field data "reasoning_chain" with
                | VJson (JArr steps) => forEach steps format_step ∅
                | _ => Throw _ end); [|done].
      rewrite bind_Normal. destruct (format_synthesis _); [|done]. by intros [= <- _ _].
    - by destruct (bool_decide _). }
  split; [|split; [exact Hphil|]].
  - rewrite botReply_unfold by done. fold both.
    intros -> Hstr Hp. by rewrite bool_decide_true, Hp.
  - intros Hboth Harr Ht Hpc.
    destruct (botReply_returns data Hnn) as [reply Hreply]; [done|].
    assert (∃ philosophers responses synthesis,
              reply = philosophical_response philosophers responses synthesis)
      as (philosophers & responses & synthesis & ->).
    { revert Hreply. rewrite botReply_unfold by done. fold both. rewrite Hboth.
      destruct (match field data "reasoning_chain" with
                | VJson (JArr steps) => forEach steps format_step ∅
                | _ => Throw _ end); [|done].
      rewrite bind_Normal. destruct (format_synthesis _); [|done].
      intros [= <-]. eauto. }
    apply Hphil in Hreply as Hp. rewrite Hpc in Hp. subst philosophers. eauto.
Qed.

(** C4 (as amended).  A submission of a query that is not blank awaits the
    nine timers of the stage loop one after the other and only then issues
    the request: when the handler reaches the request it has awaited the
    nine timers and holds every stage marked completed, the request is
    its next effect, and no timer follows it. *)
Theorem timers_precede_fetch (env : Env) (w : World) :
  trim (query (ui w)) ≠ "" →
  let at_request := until_request env (query (ui w)) (emit preventDefault w) in
  handleSubmit env w = from_request env (query (ui w)) at_request
  ∧ trace at_request = trace w ++ [preventDefault] ++ replicate 9 (setTimeout 800)
  ∧ status <$> thinkingSteps (ui at_request) = replicate 9 completed
  ∧ loading (ui at_request) = true
  ∧ trace (handleSubmit env w)
    = trace at_request
      ++ fetch "http://localhost:8000/ask" "POST"
               (JSON_stringify (JObj [("text", JStr (query (ui w)))]))
         :: match network env with fetch_rejects _ => [] | _ => [res_json] end
  ∧ ∃ events,
      trace (handleSubmit env w) = trace w ++ events
      ∧ events = [preventDefault] ++ replicate 9 (setTimeout 800)
                 ++ fetch "http://localhost:8000/ask" "POST"
                          (JSON_stringify (JObj [("text", JStr (query (ui w)))]))
                    :: match network env with fetch_rejects _ => [] | _ => [res_json] end
      ∧ timers_after_fetch events = 0.
Proof.
  intros Hq at_request. destruct (handleSubmit_run env w Hq) as [_ Htrace].
  assert (trace at_request = trace w ++ [preventDefault] ++ replicate 9 (setTimeout 800))
    as Hat.
  { subst at_request. unfold until_request. cbv zeta.
    lazymatch goal with
    | |- context [thinking_loop ?steps ?w1] =>
        destruct (thinking_loop_frame steps w1) as (_ & _ & _ & _ & Htr)
    end.
    unfold setTypingMessage. cbn [trace]. rewrite Htr. simpl. by rewrite <- app_assoc. }
  split; [unfold handleSubmit; by rewrite bool_decide_false|].
  split; [exact Hat|]. split; [reflexivity|]. split; [reflexivity|].
  split; [rewrite Htrace, Hat; by rewrite <- !app_assoc|].
  eexists. split; [exact Htrace|]. split; [done|]. by destruct (network env).
Qed.

(** C5.  Whatever the network does, a submission of a query that is not
    blank appends the user message and exactly one bot message, clears the
    thinking steps and the typing indicator, and sets [loading] back to
    false. *)
Theorem one_bot_message (env : Env) (w : World) :
  trim (query (ui w)) ≠ "" →
  ∃ botMessage,
    messages (ui (handleSubmit env w))
    = messages (ui w)
      ++ [ {| sender := user; text := Text (query (ui w));
              timestamp := submitted_at env |}; botMessage ]
    ∧ sender botMessage = bot
    ∧ text botMessage = Structured (delivered (network_outcome env))
    ∧ thinkingSteps (ui (handleSubmit env w)) = []
    ∧ loading (ui (handleSubmit env w)) = false
    ∧ typingMessage (ui (handleSubmit env w)) = None.
Proof.
  intros Hq. destruct (handleSubmit_run env w Hq) as [-> _]. simpl. eauto 10.
Qed.

(** C6.  A body whose [synthesis] is a plain string, with no
    [reasoning_chain], gives the Synthesis variant whose content is exactly
    that string; its philosophers are the default list when the body names
    none.  For the body [{"synthesis": "Know thyself."}] this is the
    Synthesis variant with content "Know thyself." and the default list. *)
Theorem plain_synthesis (data : json) (s : string) :
  field data "synthesis" = Str s →
  field data "reasoning_chain" = VUndefined →
  ∃ philosophers,
    botReply data = Normal (synthesis_response philosophers (Str s))
    ∧ (field data "philosophers" = VUndefined → philosophers = default_philosophers).
Proof.
  intros Hs Hrc. rewrite botReply_unfold by (by intros ->).
  rewrite Hs, Hrc. simpl. eexists. split; [done|]. by intros ->.
Qed.

(** C7.  Submitting a query that is empty or made of white space only
    changes no state cell: no message is appended, and the input buffer,
    the loading flag, the thinking steps and the typing indicator stay as
    they were.  The handler only calls [preventDefault]. *)
Theorem blank_query_noop (env : Env) (w : World) :
  whitespace_only (query (ui w)) = true →
  ui (handleSubmit env w) = ui w
  ∧ trace (handleSubmit env w) = trace w ++ [preventDefault].
Proof.
  intros Hq%trim_blank. unfold handleSubmit. simpl.
  by rewrite bool_decide_true.
Qed.

(** C8.  The stage catalog has nine stages with ids 1 to 9 in order, the
    first one thinking and the others pending; titles and every stage but
    the first do not depend on the query; the first description quotes the
    query, cut to its first 50 characters and followed by an ellipsis
    exactly when the query is longer. *)
Theorem stage_catalog (query : string) :
  id <$> simulateThinkingSteps query = seq 1 9
  ∧ status <$> simulateThinkingSteps query = thinking :: replicate 8 pending
  ∧ (∀ other, title <$> simulateThinkingSteps other = title <$> simulateThinkingSteps query
              ∧ tail (simulateThinkingSteps other) = tail (simulateThinkingSteps query))
  ∧ ∃ preview,
      description <$> head (simulateThinkingSteps query)
      = Some ("Parsing: " +:+ DQUOTE +:+ preview +:+ DQUOTE)
      ∧ (str_length query ≤ 50 → preview = query)
      ∧ (50 < str_length query →
         preview = str_prefix 50 query +:+ "..." ∧ str_length (str_prefix 50 query) = 50).
Proof.
  split; [done|]. split; [done|]. split; [done|].
  exists (slice 0 50 query +:+ (if bool_decide (50 < str_length query) then "..." else "")).
  split; [|split].
  - simpl. by rewrite append_assoc.
  - intros Hle. rewrite bool_decide_false by lia. rewrite slice_0, str_prefix_all by done.
    clear. induction query as [|c query IH]; [done|].
    change (String c (query +:+ "") = String c query). by rewrite IH.
  - intros Hlt. rewrite bool_decide_true by done. rewrite slice_0. split; [done|].
    apply str_prefix_length. lia.
Qed.

(** C9 (as amended).  When [reasoning_chain] is an array of entries that are
    not [null] and hold no [null] array element and no own property
    [toString], and [synthesis] is a non-empty plain string, the result is
    the Philosophical variant, and the synthesis it stores is that string,
    unchanged. *)
Theorem chain_array_keeps_synthesis (data : json) (steps : list json) (s : string) :
  field data "reasoning_chain" = VJson (JArr steps) →
  tame (JArr steps) = true →
  field data "synthesis" = Str s → s ≠ "" →
  ∃ responses,
    forEach steps format_step ∅ = Normal responses
    ∧ botReply data
      = Normal (philosophical_response (field data "philosophers_consulted")
                  responses (Str s)).
Proof.
  intros Hrc Ht Hs Hne. rewrite botReply_unfold by (by intros ->).
  rewrite Hrc, Hs.
  destruct (forEach_format_step_returns steps ∅ Ht) as [responses ->].
  exists responses. split; [done|]. simpl.
  rewrite bool_decide_false by done. simpl.
  unfold format_synthesis. rewrite bool_decide_false by done.
  unfold or_else. simpl. by rewrite bool_decide_false.
Qed.

(** C10 (as amended).  A section field that is present with a falsy value
    (null, false, a falsy number, the empty string) is rendered exactly as
    if it were missing, with the placeholder of the section; the one
    exception is [metacognitive_enhancement], whose empty string is printed
    as an empty bullet. *)
Theorem falsy_field_as_missing (properties : list (string * json)) (key : string) (v : json) :
  own key properties = Some v → ToBoolean v = false →
  (key ∈ step_fields →
   ∀ responses, format_step responses (JObj properties)
                = format_step responses (JObj (remove_property key properties)))
  ∧ (key ∈ synthesis_fields →
     (key = "metacognitive_enhancement" → v ≠ JStr "") →
     format_synthesis (JObj properties) = format_synthesis (JObj (remove_property key properties))).
Proof.
  intros Hown Hv. split.
  - intros Hkey responses. by eapply format_step_falsy.
  - intros Hkey Hme. by eapply format_synthesis_falsy.
Qed.

(** ** Further properties: the stage loop *)

Lemma updateThinkingStep_steps (stepId : nat) (s : Status) (w : World) :
  thinkingSteps (ui (updateThinkingStep stepId s w))
  = (λ step, if bool_decide (id step = stepId) then with_status s step else step)
      <$> thinkingSteps (ui w).
Proof. reflexivity. Qed.

(** X1.  Marking a stage touches nothing but statuses: the other state
    cells and the trace are kept, and so are the number, order, ids, titles
    and descriptions of the stages; the stages with the given id get the
    new status and every other stage keeps its own. *)
Theorem updateThinkingStep_frame (stepId : nat) (s : Status) (w : World) :
  let w' := updateThinkingStep stepId s w in
  query (ui w') = query (ui w)
  ∧ messages (ui w') = messages (ui w)
  ∧ loading (ui w') = loading (ui w)
  ∧ typingMessage (ui w') = typingMessage (ui w)
  ∧ trace w' = trace w
  ∧ id <$> thinkingSteps (ui w') = id <$> thinkingSteps (ui w)
  ∧ title <$> thinkingSteps (ui w') = title <$> thinkingSteps (ui w)
  ∧ description <$> thinkingSteps (ui w') = description <$> thinkingSteps (ui w)
  ∧ status <$> thinkingSteps (ui w')
    = (λ step, if bool_decide (id step = stepId) then s else status step)
        <$> thinkingSteps (ui w).
Proof.
  intros w'. subst w'. repeat split; try reflexivity.
  all: rewrite updateThinkingStep_steps, <- list_fmap_compose;
       apply list_fmap_ext; intros i step _; unfold compose;
       by destruct (bool_decide (id step = stepId)).
Qed.

(** X2.  Marking an id that no stage carries changes nothing. *)
Theorem updateThinkingStep_unknown_id (stepId : nat) (s : Status) (w : World) :
  stepId ∉ id <$> thinkingSteps (ui w) →
  updateThinkingStep stepId s w = w.
Proof.
  intros Hid. destruct w as [[q m l steps t] tr]. unfold updateThinkingStep, setThinkingSteps.
  simpl in *. do 2 f_equal.
  induction steps as [|step steps IH]; [done|]. simpl.
  rewrite fmap_cons in Hid. apply not_elem_of_cons in Hid as [Hne Hid].
  rewrite bool_decide_false by done. f_equal. by apply IH.
Qed.

(** X3.  Marking the same id twice leaves the later status: the first
    mark is overwritten. *)
Theorem updateThinkingStep_last_write (stepId : nat) (s1 s2 : Status) (w : World) :
  updateThinkingStep stepId s2 (updateThinkingStep stepId s1 w)
  = updateThinkingStep stepId s2 w.
Proof.
  destruct w as [[q m l steps t] tr]. unfold updateThinkingStep, setThinkingSteps.
  simpl. do 2 f_equal. rewrite map_map. apply map_ext. intros step.
  destruct (bool_decide (id step = stepId)) eqn:Hid; simpl; by rewrite ?Hid.
Qed.

Lemma update_status_by_index (ids : list nat) (cur : list Stage) (j : nat)
    (stepId : nat) (s : Status) :
  NoDup ids → id <$> cur = ids → ids !! j = Some stepId →
  (λ step, if bool_decide (id step = stepId) then s else status step) <$> cur
  = <[j := s]> (status <$> cur).
Proof.
  intros Hnodup Hids Hj. apply list_eq. intros i.
  rewrite list_lookup_fmap.
  destruct (decide (i = j)) as [->|Hne].
  - assert (∃ step, cur !! j = Some step ∧ id step = stepId) as (step & Hstep & Hid).
    { rewrite <- Hids, list_lookup_fmap in Hj.
      destruct (cur !! j) as [step|]; [|done]. injection Hj as Hj. eauto. }
    rewrite list_lookup_insert_eq.
    + rewrite Hstep. simpl. by rewrite bool_decide_true.
    + rewrite length_fmap. by eapply lookup_lt_Some.
  - rewrite list_lookup_insert_ne by done. rewrite list_lookup_fmap.
    destruct (cur !! i) as [step|] eqn:Hstep; [|done]. simpl.
    rewrite bool_decide_false; [done|]. intros Hid.
    apply Hne. eapply NoDup_lookup; [exact Hnodup| |exact Hj].
    by rewrite <- Hids, list_lookup_fmap, Hstep, <- Hid.
Qed.

Lemma thinking_round_frame (steps : list Stage) (i : nat) (w : World) :
  query (ui (thinking_round steps i w)) = query (ui w)
  ∧ messages (ui (thinking_round steps i w)) = messages (ui w)
  ∧ loading (ui (thinking_round steps i w)) = loading (ui w)
  ∧ typingMessage (ui (thinking_round steps i w)) = typingMessage (ui w)
  ∧ id <$> thinkingSteps (ui (thinking_round steps i w)) = id <$> thinkingSteps (ui w).
Proof.
  unfold thinking_round. destruct (steps !! i) as [step|]; [|done].
  assert (∀ stepId s w, id <$> thinkingSteps (ui (updateThinkingStep stepId s w))
                        = id <$> thinkingSteps (ui w)) as Hids.
  { intros stepId s w0. rewrite updateThinkingStep_steps, <- list_fmap_compose.
    apply list_fmap_ext. intros ? st _. unfold compose.
    by destruct (bool_decide (id st = stepId)). }
  case_bool_decide; [destruct (steps !! (i + 1))|]; by rewrite ?Hids.
Qed.

Lemma stage_status_round (steps : list Stage) (k : nat) :
  k < List.length steps →
  (if bool_decide (k < List.length steps - 1)
   then <[k + 1 := thinking]>
   else (λ l, l))
    (<[k := completed]> (imap (λ i step, stage_status k i (status step)) steps))
  = imap (λ i step, stage_status (S k) i (status step)) steps.
Proof.
  intros Hk. apply list_eq. intros i.
  rewrite list_lookup_imap.
  assert (∀ l : list Status,
            List.length l = List.length steps →
            (if bool_decide (k < List.length steps - 1)
             then <[k + 1 := thinking]> else (λ l, l)) (<[k := completed]> l) !! i
            = if bool_decide (i = k) then Some completed
              else if bool_decide (i = k + 1 ∧ i < List.length steps) then Some thinking
              else l !! i) as Hlookup.
  { intros l Hl. case_bool_decide as Hlast.
    - destruct (decide (i = k + 1)) as [->|Hne1].
      + rewrite list_lookup_insert_eq by (rewrite length_insert; lia).
        rewrite bool_decide_false by lia. by rewrite bool_decide_true by lia.
      + rewrite list_lookup_insert_ne by done.
        rewrite (bool_decide_false (i = k + 1 ∧ _)) by lia.
        destruct (decide (i = k)) as [->|Hne].
        * rewrite list_lookup_insert_eq by lia. by rewrite bool_decide_true.
        * rewrite list_lookup_insert_ne by done. by rewrite bool_decide_false.
    - rewrite (bool_decide_false (i = k + 1 ∧ _)) by lia.
      destruct (decide (i = k)) as [->|Hne].
      + rewrite list_lookup_insert_eq by lia. by rewrite bool_decide_true.
      + rewrite list_lookup_insert_ne by done. by rewrite bool_decide_false. }
  rewrite Hlookup by (by rewrite length_imap).
  rewrite list_lookup_imap.
  destruct (steps !! i) as [step|] eqn:Hstep; simpl.
  - apply lookup_lt_Some in Hstep as Hi. unfold stage_status.
    repeat case_bool_decide; try done; lia.
  - apply lookup_ge_None in Hstep. repeat case_bool_decide; try done; lia.
Qed.
Lemma stage_status_0 (steps : list Stage) :
  imap (λ i step, stage_status 0 i (status step)) steps = status <$> steps.
Proof.
  apply list_eq. intros i. rewrite list_lookup_imap, list_lookup_fmap.
  destruct (steps !! i); [|done]. simpl. unfold stage_status.
  rewrite bool_decide_false by lia. by rewrite bool_decide_false by lia.
Qed.

(** X4.  Over stages with distinct ids, once [k] rounds of the loop have
    run, exactly [k] timers have been awaited, the stages before [k] are
    completed, stage [k] (after the first round) is the one in progress,
    and every later stage still has the status it was created with. *)
Theorem stages_complete_in_order (steps : list Stage) (k : nat) (w : World) :
  NoDup (id <$> steps) → thinkingSteps (ui w) = steps → k ≤ List.length steps →
  status <$> thinkingSteps (ui (thinking_rounds steps k w))
  = imap (λ i step, stage_status k i (status step)) steps
  ∧ id <$> thinkingSteps (ui (thinking_rounds steps k w)) = id <$> steps
  ∧ trace (thinking_rounds steps k w) = trace w ++ replicate k (setTimeout 800).
Proof.
  intros Hnodup Hsteps. induction k as [|k IH]; intros Hk.
  - simpl. rewrite stage_status_0, Hsteps, app_nil_r. done.
  - destruct IH as (Hstatus & Hids & Htrace); [lia|].
    simpl. set (wk := thinking_rounds steps k w) in *.
    destruct (lookup_lt_is_Some_2 steps k) as [step Hstep]; [lia|].
    assert ((id <$> steps) !! k = Some (id step)) as Hidk
      by (by rewrite list_lookup_fmap, Hstep).
    unfold thinking_round. rewrite Hstep.
    set (w1 := updateThinkingStep (id step) completed (emit (setTimeout 800) wk)).
    assert (status <$> thinkingSteps (ui w1)
            = <[k := completed]> (imap (λ i step, stage_status k i (status step)) steps))
      as Hstatus1.
    { unfold w1. rewrite updateThinkingStep_steps, <- list_fmap_compose. simpl.
      rewrite <- Hstatus.
      rewrite <- (update_status_by_index (id <$> steps) _ k (id step)); try done.
      apply list_fmap_ext. intros ? st _. unfold compose.
      by destruct (bool_decide (id st = id step)). }
    assert (id <$> thinkingSteps (ui w1) = id <$> steps) as Hids1.
    { unfold w1. rewrite <- Hids, updateThinkingStep_steps, <- list_fmap_compose.
      apply list_fmap_ext. intros ? st _. unfold compose; simpl.
      by destruct (bool_decide (id st = id step)). }
    assert (trace w1 = trace w ++ replicate (S k) (setTimeout 800)) as Htrace1.
    { rewrite replicate_S_end, app_assoc, <- Htrace. reflexivity. }
    rewrite <- (stage_status_round steps k) by lia.
    case_bool_decide as Hlast; [|done].
    destruct (lookup_lt_is_Some_2 steps (k + 1)) as [next Hnext]; [lia|].
    rewrite Hnext. split; [|split; [|done]].
    + rewrite updateThinkingStep_steps, <- list_fmap_compose, <- Hstatus1.
      rewrite <- (update_status_by_index (id <$> steps) _ (k + 1) (id next)); try done.
      * apply list_fmap_ext. intros ? st _. unfold compose.
        by destruct (bool_decide (id st = id next)).
      * by rewrite list_lookup_fmap, Hnext.
    + rewrite <- Hids1, updateThinkingStep_steps, <- list_fmap_compose.
      apply list_fmap_ext. intros ? st _. unfold compose; simpl.
      by destruct (bool_decide (id st = id next)).
Qed.

Lemma thinking_loop_round (steps : list Stage) (k : nat) (w : World) :
  k < List.length steps →
  thinking_loop (drop k steps) w
  = thinking_loop (drop (S k) steps) (thinking_round steps k w).
Proof.
  intros Hk. destruct (lookup_lt_is_Some_2 steps k) as [step Hstep]; [lia|].
  rewrite (drop_S _ _ _ Hstep). unfold thinking_round. rewrite Hstep. simpl.
  case_bool_decide as Hlast.
  - destruct (lookup_lt_is_Some_2 steps (k + 1)) as [next Hnext]; [lia|].
    rewrite Hnext. replace (k + 1) with (S k) in Hnext by lia.
    by rewrite (drop_S _ _ _ Hnext).
  - rewrite drop_ge by lia. done.
Qed.

Lemma thinking_rounds_loop (steps : list Stage) (k : nat) (w : World) :
  k ≤ List.length steps →
  thinking_loop steps w = thinking_loop (drop k steps) (thinking_rounds steps k w).
Proof.
  induction k as [|k IH]; intros Hk; [done|].
  rewrite IH by lia. simpl. by apply thinking_loop_round.
Qed.

Lemma thinking_rounds_all (steps : list Stage) (w : World) :
  thinking_rounds steps (List.length steps) w = thinking_loop steps w.
Proof. rewrite (thinking_rounds_loop steps (List.length steps)) by done. by rewrite drop_all. Qed.

(** ** Further properties: sessions and what the component shows *)

Lemma exchange_state (w : World) (turn : string * Env) :
  if bool_decide (trim turn.1 = "") then
    ui (exchange w turn)
    = {| query := turn.1; messages := messages (ui w); loading := loading (ui w);
         thinkingSteps := thinkingSteps (ui w); typingMessage := typingMessage (ui w) |}
  else
    ui (exchange w turn)
    = {| query := ""; messages := messages (ui w) ++ transcript [turn];
         loading := false; thinkingSteps := []; typingMessage := None |}.
Proof.
  unfold exchange, onChange. case_bool_decide as Hblank.
  - unfold handleSubmit. simpl. by rewrite bool_decide_true.
  - destruct (handleSubmit_run turn.2 (setQuery turn.1 w)) as [-> _]; [done|].
    simpl. unfold transcript, submitted. rewrite filter_cons_True by done.
    by rewrite filter_nil.
Qed.

Lemma transcript_cons (turn : string * Env) (turns : list (string * Env)) :
  transcript (turn :: turns) = transcript [turn] ++ transcript turns.
Proof.
  unfold transcript, submitted. destruct (decide (trim turn.1 ≠ "")).
  - rewrite !filter_cons_True by done. by rewrite filter_nil.
  - rewrite !filter_cons_False by done. by rewrite filter_nil.
Qed.

(** X5.  The history only grows, by whole exchanges: after a session the
    messages are the old ones followed by what each submitted turn left,
    in order; the senders of the new messages alternate user, bot, one
    pair per turn whose query was not blank. *)
Theorem session_transcript (turns : list (string * Env)) (w : World) :
  messages (ui (session turns w)) = messages (ui w) ++ transcript turns
  ∧ sender <$> transcript turns
    = mjoin (replicate (List.length (submitted turns)) [user; bot]).
Proof.
  split.
  - revert w. induction turns as [|turn turns IH]; intros w.
    + simpl. by rewrite app_nil_r.
    + unfold session in *. simpl. rewrite IH, transcript_cons, app_assoc. f_equal.
      pose proof (exchange_state w turn) as Hturn.
      destruct (bool_decide (trim turn.1 = "")) eqn:Hblank; rewrite Hturn; simpl; [|done].
      apply bool_decide_eq_true in Hblank.
      unfold transcript, submitted. rewrite filter_cons_False by (by intros ?).
      by rewrite filter_nil, app_nil_r.
  - unfold transcript. induction (submitted turns) as [|turn rest IH]; [done|].
    rewrite bind_cons, fmap_app, IH. reflexivity.
Qed.

(** X6.  A component at rest is at rest again after any session: input
    enabled, no thinking steps, no typing indicator. *)
Theorem session_stays_idle (turns : list (string * Env)) (w : World) :
  loading (ui w) = false → thinkingSteps (ui w) = [] → typingMessage (ui w) = None →
  loading (ui (session turns w)) = false
  ∧ thinkingSteps (ui (session turns w)) = []
  ∧ typingMessage (ui (session turns w)) = None.
Proof.
  revert w. induction turns as [|turn turns IH]; intros w Hl Hs Ht; [done|].
  unfold session in *. simpl.
  pose proof (exchange_state w turn) as Hturn.
  destruct (bool_decide (trim turn.1 = "")); apply IH; rewrite Hturn; done.
Qed.

(** X7.  The handler itself never looks at [loading]: called while a
    request is pending it runs exactly as it does at rest.  Only the
    disabled input and button keep a second submission away. *)
Theorem handleSubmit_ignores_loading (env : Env) (w : World) (b : bool) :
  trim (query (ui w)) ≠ "" →
  ui (handleSubmit env (setLoading b w)) = ui (handleSubmit env w)
  ∧ trace (handleSubmit env (setLoading b w)) = trace (handleSubmit env w).
Proof.
  intros Hq.
  destruct (handleSubmit_run env w Hq) as [-> ->].
  destruct (handleSubmit_run env (setLoading b w) Hq) as [-> ->]. done.
Qed.

Lemma mapC_app {A B} (f : A → completion B) (xs ys : list A) :
  mapC f (xs ++ ys)
  = xs' ← mapC f xs; ys' ← mapC f ys; Normal (xs' ++ ys').
Proof.
  induction xs as [|x xs IH]; simpl.
  - by destruct (mapC f ys).
  - destruct (f x) as [y|]; [|done]. rewrite IH.
    destruct (mapC f xs) as [xs'|]; [|done]. simpl. by destruct (mapC f ys).
Qed.

(** X8.  When a submission has run to its end and the history renders,
    what the component shows depends on the delivered reply alone.  If
    the reply renders, the component shows the earlier bubbles, the
    query and the reply, with the input enabled, the send button
    disabled (the query was cleared) and the welcome screen, the
    thinking container and the typing indicator hidden.  If rendering
    the reply throws, the render of the component throws: nothing is
    shown. *)
Theorem view_after_submission (env : Env) (w : World) (earlier : list Bubble) :
  trim (query (ui w)) ≠ "" →
  mapC (λ msg, renderResponse (text msg)) (messages (ui w)) = Normal earlier →
  (∀ bubble,
     renderResponse (Structured (delivered (network_outcome env))) = Normal bubble →
     App (ui (handleSubmit env w))
     = Normal {| shows_welcome := false;
                 shows_thinking := false;
                 shows_bubbles := earlier ++ [message_text (query (ui w)); bubble];
                 shows_typing := false;
                 disables_input := false;
                 disables_send := true |})
  ∧ (∀ error,
       renderResponse (Structured (delivered (network_outcome env))) = Throw error →
       App (ui (handleSubmit env w)) = Throw error).
Proof.
  intros Hq Hearlier. destruct (handleSubmit_run env w Hq) as [Hui _].
  unfold App. rewrite Hui. cbn [messages]. rewrite mapC_app, Hearlier, bind_Normal.
  split.
  - intros bubble Hreply. cbn [mapC text]. rewrite Hreply.
    change (renderResponse (Text (query (ui w)))) with (Normal (message_text (query (ui w)))).
    cbv iota beta. rewrite !bind_Normal. unfold welcome_screen, thinking_container, typing_indicator,
      input_disabled, send_disabled. cbn [messages loading thinkingSteps typingMessage query].
    rewrite bool_decide_false; [done|]. rewrite length_app. simpl. lia.
  - intros error Hreply. cbn [mapC text]. by rewrite Hreply.
Qed.

(** ** Further properties: the perspectives *)

Lemma bind_eq_Normal {A B} (c : completion A) (f : A → completion B) (b : B) :
  c ≫= f = Normal b → ∃ a, c = Normal a ∧ f a = Normal b.
Proof. destruct c as [a|e]; [eauto|done]. Qed.

Lemma assigns_once_bind {A} (c : completion A)
    (k : A → gmap string string → completion (gmap string string)) :
  (∀ a, assigns_once (k a)) → assigns_once (λ responses, c ≫= λ a, k a responses).
Proof. destruct c as [a|e]; intros Hk; [apply Hk|]. right. by exists e. Qed.

Lemma format_step_assigns_once (step : json) :
  assigns_once (λ responses, format_step responses step).
Proof.
  unfold format_step.
  repeat (cbv beta zeta;
          lazymatch goal with
          | |- assigns_once (λ responses, ?c ≫= @?k responses) =>
              refine (assigns_once_bind c (λ a responses, k responses a) _); intros ?
          end).
  cbv beta. left. by eexists _, _.
Qed.

Lemma forEach_app {A S} (xs ys : list A) (body : S → A → completion S) (acc : S) :
  forEach (xs ++ ys) body acc = forEach xs body acc ≫= forEach ys body.
Proof.
  revert acc. induction xs as [|x xs IH]; intros acc; simpl; [done|].
  destruct (body acc x); [apply IH|done].
Qed.

(** X9.  An entry of the chain is filed under the string conversion of its
    [philosopher] field and leaves every other perspective as it was; an
    entry without the field is filed under the name undefined. *)
Theorem entry_filed_by_name (responses filled : gmap string string) (step : json) :
  format_step responses step = Normal filled →
  ∃ key text,
    ToString (field step "philosopher") = Normal key
    ∧ filled = (if bool_decide (key = "__proto__") then responses
                else <[key := text]> responses)
    ∧ (∀ other, other ≠ key → filled !! other = responses !! other)
    ∧ (field step "philosopher" = VUndefined → key = "undefined").
Proof.
  intros Hrun.
  assert (step ≠ JNull) as Hnn by (intros ->; discriminate Hrun).
  unfold format_step in Hrun. rewrite (Get_field step "philosopher") in Hrun by done.
  rewrite bind_Normal in Hrun.
  repeat (apply bind_eq_Normal in Hrun as (? & ? & Hrun); cbv beta zeta in Hrun).
  injection Hrun as <-.
  lazymatch goal with
  | Hkey : ToString (field step "philosopher") = Normal ?key |- _ =>
      exists key; eexists; split; [exact Hkey|]; split; [reflexivity|]; split;
      [|intros Hundef; rewrite Hundef in Hkey; by injection Hkey as <-]
  end.
  intros other Hother. case_bool_decide; [done|]. by rewrite lookup_insert_ne.
Qed.

(** X10.  When two entries of the chain name the same philosopher the
    later one wins: what the last entry files is what the reply holds
    under that name, whatever came before. *)
Theorem last_entry_wins (steps : list json) (step : json)
    (responses : gmap string string) (key text : string) :
  forEach (steps ++ [step]) format_step ∅ = Normal responses →
  format_step ∅ step = Normal {[ key := text ]} →
  responses !! key = Some text.
Proof.
  rewrite forEach_app. intros (before & _ & Hlast)%bind_eq_Normal Halone.
  simpl in Hlast.
  destruct (format_step_assigns_once step) as [(key0 & text0 & Hstep)|(error & Hstep)];
    rewrite Hstep in Hlast, Halone; [|done].
  injection Halone as Halone.
  assert ((if bool_decide (key0 = "__proto__") then (∅ : gmap string string)
           else <[key0 := text0]> ∅) !! key = Some text) as Hlook
    by (rewrite Halone; apply lookup_singleton_eq).
  case_bool_decide; [done|].
  apply lookup_insert_Some in Hlook as [[-> ->]|[_ ?]]; [|done].
  injection Hlast as <-. apply lookup_insert_eq.
Qed.

Lemma forEach_format_step_size (steps : list json) (acc responses : gmap string string) :
  forEach steps format_step acc = Normal responses →
  size responses ≤ size acc + List.length steps.
Proof.
  revert acc. induction steps as [|step steps IH]; intros acc; simpl.
  - intros [= <-]. lia.
  - destruct (format_step_assigns_once step) as [(key & text & Hstep)|(error & Hstep)];
      rewrite Hstep; [|done].
    intros Hrest%IH. etrans; [exact Hrest|].
    case_bool_decide; [lia|].
    destruct (acc !! key) as [old|] eqn:Hold.
    + rewrite map_size_insert_Some by eauto. lia.
    + rewrite map_size_insert_None by done. lia.
Qed.

(** X11.  The reply holds at most one perspective per entry of the chain,
    and none for an empty chain. *)
Theorem perspectives_bound (steps : list json) (responses : gmap string string) :
  forEach steps format_step ∅ = Normal responses →
  size responses ≤ List.length steps ∧ (steps = [] → responses = ∅).
Proof.
  intros Hrun. split.
  - apply forEach_format_step_size in Hrun. by rewrite map_size_empty in Hrun.
  - intros ->. by injection Hrun as <-.
Qed.

(** ** Further properties: the synthesis text *)

Lemma extends_refl (p : string) : ∃ t, p = p +:+ t.
Proof.
  exists "". induction p as [|a p IH]; [done|].
  change (String a p = String a (p +:+ "")). by rewrite <- IH.
Qed.

Lemma extends_append (p s t : string) :
  (∃ u, s = p +:+ u) → ∃ u, s +:+ t = p +:+ u.
Proof. intros [u ->]. exists (u +:+ t). by rewrite append_assoc. Qed.

Lemma extends_trans (p s r : string) :
  (∃ u, s = p +:+ u) → (∃ u, r = s +:+ u) → ∃ u, r = p +:+ u.
Proof. intros [u ->] [v ->]. exists (u +:+ v). by rewrite append_assoc. Qed.

Lemma forEach_extends {A} (xs : list A) (body : string → A → completion string)
    (text result : string) :
  (∀ acc x r, body acc x = Normal r → ∃ u, r = acc +:+ u) →
  forEach xs body text = Normal result → ∃ u, result = text +:+ u.
Proof.
  intros Hbody. revert text. induction xs as [|x xs IH]; intros text; simpl.
  - intros [= <-]. apply extends_refl.
  - destruct (body text x) as [acc|] eqn:Hx; [|done].
    intros Hrest%IH. eapply extends_trans; [by eapply Hbody|done].
Qed.

Lemma bullets_extends (list : value) (entry : json → completion value)
    (none text result : string) :
  bullets list entry none text = Normal result → ∃ u, result = text +:+ u.
Proof.
  unfold bullets. destruct list as [|[]|]; try (intros [= <-]; by eexists).
  apply forEach_extends. intros acc x r.
  intros (v & _ & (s & _ & [= <-])%bind_eq_Normal)%bind_eq_Normal. by eexists.
Qed.

Lemma format_synthesis_object (synthesis result : value) :
  typeof synthesis = "object" →
  format_synthesis synthesis = Normal result →
  ∃ rest, result = Str ("**Integrated Wisdom**: " +:+ rest).
Proof.
  intros Hobj. unfold format_synthesis. rewrite bool_decide_eq_true_2 by done.
  intros Hrun.
  repeat (apply bind_eq_Normal in Hrun as (? & ? & Hrun); cbv beta zeta in Hrun).
  injection Hrun as <-.
  lazymatch goal with
  | _ : Get synthesis "metacognitive_enhancement" = Normal ?me,
    _ : Get synthesis "dialectical_challenges" = Normal ?d |- _ =>
      destruct me as [|[]|]; destruct (ToBoolean d)
  end;
  repeat match goal with
         | Hb : bullets _ _ _ _ = Normal _ |- _ => apply bullets_extends in Hb
         | Hb : _ ≫= _ = Normal _ |- _ => apply bind_eq_Normal in Hb as (? & ? & Hb)
         | Hb : forEach _ _ _ = Normal _ |- _ =>
             apply forEach_extends in Hb;
             [|intros acc entry r' (v & _ & [= <-])%bind_eq_Normal; by eexists]
         | Hb : @Normal string _ = Normal _ |- _ => injection Hb as <-
         end;
  change ("" +:+ "**Integrated Wisdom**: " +:+ ?x +:+ LF +:+ LF)
    with ("**Integrated Wisdom**: " +:+ x +:+ LF +:+ LF) in *;
  (lazymatch goal with
   | |- ∃ rest, Str ?text = _ =>
       cut (∃ u, text = "**Integrated Wisdom**: " +:+ u);
       [intros [u ->]; by exists u|]
   end);
  repeat first [ apply extends_refl
               | apply extends_append
               | eapply extends_trans; [|eassumption] ].
Qed.

Lemma philosophical_reply (data : json) (philosophers : value)
    (responses : gmap string string) (synthesis : value) :
  botReply data = Normal (philosophical_response philosophers responses synthesis) →
  data ≠ JNull
  ∧ ToBoolean (field data "synthesis") = true
  ∧ format_synthesis (field data "synthesis") = Normal synthesis.
Proof.
  intros Hrun. assert (data ≠ JNull) as Hnn by (intros ->; discriminate Hrun).
  split; [done|]. rewrite botReply_unfold in Hrun by done.
  destruct (_ && _) eqn:Hboth.
  - apply andb_true_iff in Hboth as [_ Hsyn]. split; [done|].
    apply bind_eq_Normal in Hrun as (? & _ & Hrun).
    apply bind_eq_Normal in Hrun as (? & Hformat & Hrun).
    by injection Hrun as <- <- <-.
  - by destruct (bool_decide _).
Qed.

Lemma field_not_native (data : json) (name : string) :
  field data "synthesis" ≠ VNative name.
Proof.
  destruct data as [| | | | |properties]; try done.
  unfold field. simpl. by destruct (own "synthesis" properties).
Qed.

(** X12.  The synthesis a philosophical reply stores is never empty, so
    the fallback text of line 190 is never used: a response synthesis
    that is not an object is stored as it is, and a structured one as a
    text that begins with the Integrated Wisdom heading. *)
Theorem stored_synthesis (data : json) (philosophers : value)
    (responses : gmap string string) (synthesis : value) :
  botReply data = Normal (philosophical_response philosophers responses synthesis) →
  ToBoolean synthesis = true
  ∧ (typeof (field data "synthesis") ≠ "object" → synthesis = field data "synthesis")
  ∧ (typeof (field data "synthesis") = "object" →
     ∃ rest, synthesis = Str ("**Integrated Wisdom**: " +:+ rest)).
Proof.
  intros (Hnn & Htruthy & Hformat)%philosophical_reply.
  destruct (decide (typeof (field data "synthesis") = "object")) as [Hobj|Hobj].
  - destruct (format_synthesis_object _ _ Hobj Hformat) as [rest ->].
    split; [done|]. split; [done|]. intros _. by exists rest.
  - unfold format_synthesis in Hformat. rewrite bool_decide_eq_false_2 in Hformat by done.
    unfold or_else in Hformat. rewrite Htruthy in Hformat. injection Hformat as <-.
    done.
Qed.

(** X13.  What the renderer makes of the synthesis of a philosophical
    reply, whenever the reply renders, that is whenever its header line
    does not throw: the bubble holds the Integrated Wisdom block with the
    stored text when the response synthesis is a string or an object, and
    nothing at all for it when it is a number or a boolean; a stray text
    node is never printed. *)
Theorem synthesis_block (data : json) (philosophers : value)
    (responses : gmap string string) (synthesis : value) (bubble : Bubble) :
  botReply data = Normal (philosophical_response philosophers responses synthesis) →
  renderResponse (Structured (philosophical_response philosophers responses synthesis))
  = Normal bubble →
  ∃ names,
    consulted philosophers "Multiple philosophers" = Normal names
    ∧ bubble = philosophical_bubble names responses (synthesis_child synthesis)
    ∧ match synthesis_child synthesis with
      | integrated_wisdom s =>
          synthesis = Str s
          ∧ (typeof (field data "synthesis") = "string"
             ∨ typeof (field data "synthesis") = "object")
      | no_child =>
          synthesis = field data "synthesis"
          ∧ (typeof synthesis = "number" ∨ typeof synthesis = "boolean")
      | text_child _ => False
      end.
Proof.
  intros (Hnn & Htruthy & Hformat)%philosophical_reply Hrender.
  cbn [renderResponse] in Hrender. unfold renderPhilosophicalResponse in Hrender.
  apply bind_eq_Normal in Hrender as (names & Hnames & [= <-]).
  exists names. split; [exact Hnames|]. split; [reflexivity|].
  destruct (decide (typeof (field data "synthesis") = "object")) as [Hobj|Hobj].
  - destruct (format_synthesis_object _ _ Hobj Hformat) as [rest ->].
    simpl. by auto.
  - unfold format_synthesis in Hformat. rewrite bool_decide_eq_false_2 in Hformat by done.
    unfold or_else in Hformat. rewrite Htruthy in Hformat. injection Hformat as <-.
    pose proof (field_not_native data) as Hnative.
    unfold synthesis_child. rewrite Htruthy.
    destruct (field data "synthesis") as [|[]|name]; simpl in *; try done; auto.
    by destruct (Hnative name).
Qed.

(** ** Further properties: the header line and the other two components *)

(** X14.  The header never shows an empty list of names: whenever the
    line renders, the text after Consulted is a non-empty string.  It is
    the fallback for a list that is not an array (missing or [null]) and
    for an array whose elements join to the empty string, the empty array
    among them; otherwise it is the joined names. *)
Theorem consulted_never_blank (philosophers shown : value) (fallback : string) :
  fallback ≠ "" →
  consulted philosophers fallback = Normal shown →
  ∃ names, shown = Str names ∧ names ≠ ""
           ∧ (isArray philosophers = false → names = fallback)
           ∧ (∀ elements joined,
                philosophers = VJson (JArr elements) →
                join ", " (map VJson elements) = Normal joined →
                names = if bool_decide (joined = "") then fallback else joined)
           ∧ (philosophers = VJson (JArr []) → names = fallback).
Proof.
  intros Hfallback. unfold consulted.
  destruct philosophers as [|[ | | | |elements| ]|]; try done.
  - intros [= <-]. by exists fallback.
  - intros [= <-]. by exists fallback.
  - destruct (join _ _) as [joined|] eqn:Hjoin; [|done].
    rewrite bind_Normal. unfold or_else. simpl.
    case_bool_decide as Hjoined; simpl; intros [= <-].
    + exists fallback. split; [done|]. split; [done|]. split; [done|]. split; [|done].
      intros elements' joined' [= <-] Hjoin'. rewrite Hjoin in Hjoin'.
      injection Hjoin' as <-. by rewrite bool_decide_true.
    + exists joined. split; [done|]. split; [done|]. split; [done|]. split.
      * intros elements' joined' [= <-] Hjoin'. rewrite Hjoin in Hjoin'.
        injection Hjoin' as <-. by rewrite bool_decide_false.
      * intros [= ->]. by injection Hjoin as <-.
Qed.

(** X15.  Nothing checks that the names a reply carries are a list.  A
    synthesis reply always carries a truthy [philosophers], the one of
    the response unless that is falsy; when it is not an array, the
    header line throws while the message is rendered. *)
Theorem unchecked_philosophers (data : json) (philosophers content : value) :
  botReply data = Normal (synthesis_response philosophers content) →
  ToBoolean philosophers = true
  ∧ (ToBoolean (field data "philosophers") = true →
     philosophers = field data "philosophers")
  ∧ (isArray philosophers = false →
     ∃ error, consulted philosophers "Ancient Philosophers" = Throw error).
Proof.
  intros Hrun. assert (data ≠ JNull) as Hnn by (intros ->; discriminate Hrun).
  rewrite botReply_unfold in Hrun by done.
  destruct (_ && _).
  { apply bind_eq_Normal in Hrun as (? & _ & Hrun).
    by apply bind_eq_Normal in Hrun as (? & _ & Hrun). }
  destruct (bool_decide _); [|done].
  destruct (ToBoolean (field data "philosophers")) eqn:Htruthy.
  - injection Hrun as <- <-. split; [done|]. split; [done|].
    intros Harray. unfold consulted.
    destruct (field data "philosophers") as [|[]|]; try done; by eexists.
  - injection Hrun as <- <-. done.
Qed.

Lemma Object_entries_truthy (v : value) :
  ToBoolean v = true → ∃ entries, Object_entries v = Normal entries.
Proof. destruct v as [|[]|]; try done; by eexists. Qed.

Lemma V2_botReply_unfold (data : json) :
  data ≠ JNull →
  V2.botReply data =
    match field data "synthesis" with
    | VJson (JStr s) => Normal (V2.plain s)
    | synthesis =>
        if ToBoolean (field data "responses") then
          philosophers ←
            (if ToBoolean (field data "philosophers")
             then Normal (field data "philosophers")
             else keys ← Object_keys (field data "responses");
                  Normal (VJson (JArr (JStr <$> keys))));
          Normal (V2.philosophical_response philosophers (field data "responses")
                    synthesis (field data "timestamp") (field data "philosophers"))
        else Normal (V2.plain (JSON_stringify_2 data))
    end.
Proof.
  intros Hnn. unfold V2.botReply, or_else.
  rewrite !(Get_field data) by done. rewrite !bind_Normal.
  destruct (field data "synthesis") as [|[]|]; try done;
    destruct (ToBoolean (field data "responses")) eqn:Hresponses; try done;
    rewrite ?bind_Normal; by destruct (ToBoolean (field data "philosophers")).
Qed.

(** X16.  The classification of the second and of the third component
    never throws on a body that is not [null], whatever its shape; only
    the first one reads inside the fields. *)
Theorem later_versions_total (data : json) :
  data ≠ JNull →
  (∃ reply, V2.botReply data = Normal reply)
  ∧ (∃ reply, V3.botReply data = Normal reply).
Proof.
  intros Hnn. split.
  - rewrite V2_botReply_unfold by done.
    assert (ToBoolean (field data "responses") = true →
            ∃ philosophers,
              (if ToBoolean (field data "philosophers")
               then Normal (field data "philosophers")
               else keys ← Object_keys (field data "responses");
                    Normal (VJson (JArr (JStr <$> keys)))) = Normal philosophers)
      as Hnames.
    { intros [entries Hentries]%Object_entries_truthy.
      destruct (ToBoolean (field data "philosophers")); [by eexists|].
      unfold Object_keys. rewrite Hentries. by eexists. }
    destruct (field data "synthesis") as [|[]|]; try by eexists.
    all: destruct (ToBoolean (field data "responses")); [|by eexists].
    all: destruct Hnames as [philosophers ->]; [done|]; by eexists.
  - unfold V3.botReply. rewrite (Get_field data) by done. rewrite bind_Normal.
    destruct (field data "synthesis") as [|[]|]; by eexists.
Qed.


(** X18.  A philosophical reply of the second component: its
    [philosophers] is always truthy, the names of the response or else
    the array of the keys of [responses] in their order, while the copy under
    [metadata] is the field of the response with no default. *)
Theorem V2_philosophers_default (data : json)
    (philosophers responses synthesis timestamp philosophers_consulted : value) :
  V2.botReply data
  = Normal (V2.philosophical_response philosophers responses synthesis
              timestamp philosophers_consulted) →
  ToBoolean philosophers = true
  ∧ responses = field data "responses" ∧ ToBoolean responses = true
  ∧ synthesis = field data "synthesis" ∧ typeof synthesis ≠ "string"
  ∧ philosophers_consulted = field data "philosophers"
  ∧ (ToBoolean philosophers_consulted = true → philosophers = philosophers_consulted)
  ∧ (ToBoolean philosophers_consulted = false →
     isArray philosophers = true
     ∧ ∃ keys, Object_keys responses = Normal keys
               ∧ philosophers = VJson (JArr (JStr <$> keys))).
Proof.
  intros Hrun. assert (data ≠ JNull) as Hnn by (intros ->; discriminate Hrun).
  rewrite V2_botReply_unfold in Hrun by done.
  assert (typeof (field data "synthesis") ≠ "string" →
          (if ToBoolean (field data "responses") then
             philosophers ←
               (if ToBoolean (field data "philosophers")
                then Normal (field data "philosophers")
                else keys ← Object_keys (field data "responses");
                     Normal (VJson (JArr (JStr <$> keys))));
             Normal (V2.philosophical_response philosophers (field data "responses")
                       (field data "synthesis") (field data "timestamp")
                       (field data "philosophers"))
           else Normal (V2.plain (JSON_stringify_2 data)))
          = Normal (V2.philosophical_response philosophers responses synthesis
                      timestamp philosophers_consulted) →
          ToBoolean philosophers = true
          ∧ responses = field data "responses" ∧ ToBoolean responses = true
          ∧ synthesis = field data "synthesis" ∧ typeof synthesis ≠ "string"
          ∧ philosophers_consulted = field data "philosophers"
          ∧ (ToBoolean philosophers_consulted = true → philosophers = philosophers_consulted)
          ∧ (ToBoolean philosophers_consulted = false →
             isArray philosophers = true
             ∧ ∃ keys, Object_keys responses = Normal keys
                       ∧ philosophers = VJson (JArr (JStr <$> keys))))
    as Hcase.
  { intros Hstring. destruct (ToBoolean (field data "responses")) eqn:Hresponses; [|done].
    intros (names & Hnames & [= <- <- <- <- <-])%bind_eq_Normal.
    destruct (ToBoolean (field data "philosophers")) eqn:Hgiven.
    - injection Hnames as <-. done.
    - apply bind_eq_Normal in Hnames as (keys & Hkeys & [= <-]).
      do 7 (split; [done|]). intros _. split; [done|]. by exists keys. }
  destruct (field data "synthesis") as [|[]|]; try done; by apply Hcase.
Qed.

(** ** Further properties: the request body *)

Lemma unquote_quote_char (c : ascii) (rest : string) :
  unquote_chars (quote_char c +:+ rest) = String c (unquote_chars rest).
Proof. destruct c as [[] [] [] [] [] [] [] []]; reflexivity. Qed.

Lemma unquote_quote_chars (s rest : string) :
  unquote_chars (quote_chars s +:+ rest) = s +:+ unquote_chars rest.
Proof.
  induction s as [|c s IH]; [done|].
  change (quote_chars (String c s)) with (quote_char c +:+ quote_chars s).
  rewrite append_assoc, unquote_quote_char, IH. done.
Qed.

Lemma str_length_append (a b : string) :
  str_length (a +:+ b) = str_length a + str_length b.
Proof.
  induction a as [|x a IH]; [done|].
  change (S (str_length (a +:+ b)) = S (str_length a + str_length b)). by rewrite IH.
Qed.

Lemma append_cancel_r (a b c : string) : a +:+ c = b +:+ c → a = b.
Proof.
  revert b. induction a as [|x a IH]; intros [|y b] Heq; [done| | |].
  - apply (f_equal str_length) in Heq.
    change (str_length c = S (str_length (b +:+ c))) in Heq.
    rewrite str_length_append in Heq. lia.
  - apply (f_equal str_length) in Heq.
    change (S (str_length (a +:+ c)) = str_length c) in Heq.
    rewrite str_length_append in Heq. lia.
  - change (String x (a +:+ c) = String y (b +:+ c)) in Heq.
    injection Heq as -> Heq. f_equal. by apply IH.
Qed.

(** X19.  The request body determines the query: two queries that are
    sent as the same JSON text are the same string, whatever quotes,
    backslashes or control characters they hold. *)
Theorem request_body_injective (query1 query2 : string) :
  JSON_stringify (JObj [("text", JStr query1)])
  = JSON_stringify (JObj [("text", JStr query2)]) →
  query1 = query2.
Proof.
  intros Hbody.
  assert (∀ q, JSON_stringify (JObj [("text", JStr q)])
               = "{" +:+ DQUOTE +:+ "text" +:+ DQUOTE +:+ ":" +:+ DQUOTE
                 +:+ (quote_chars q +:+ DQUOTE) +:+ "}") as Hshape by reflexivity.
  rewrite !Hshape in Hbody.
  repeat apply String.app_inj in Hbody.
  rewrite !append_assoc in Hbody.
  apply (f_equal unquote_chars) in Hbody.
  rewrite !unquote_quote_chars in Hbody.
  by apply append_cancel_r in Hbody.
Qed.

Lemma exchange_trace (w : World) (turn : string * Env) :
  requests (trace (exchange w turn))
  = requests (trace w)
    ++ (if bool_decide (trim turn.1 = "") then []
        else [JSON_stringify (JObj [("text", JStr turn.1)])])
  ∧ count_timers (trace (exchange w turn))
    = count_timers (trace w) + (if bool_decide (trim turn.1 = "") then 0 else 9).
Proof.
  assert (∀ t u, count_timers (t ++ u) = count_timers t + count_timers u) as Hcount.
  { intros t u. induction t as [|[] t IH]; simpl; lia. }
  unfold exchange, onChange. case_bool_decide as Hblank.
  - unfold handleSubmit. simpl. rewrite bool_decide_true by done. simpl.
    unfold requests. rewrite omap_app, Hcount. simpl. by rewrite app_nil_r, Nat.add_0_r.
  - destruct (handleSubmit_run turn.2 (setQuery turn.1 w)) as [_ ->]; [done|].
    simpl. unfold requests. rewrite omap_app, Hcount. split.
    + f_equal. by destruct (network turn.2).
    + f_equal. by destruct (network turn.2).
Qed.

(** X20.  Over a session the component sends one request per turn whose
    query is not blank, in order, each carrying the query as it was
    typed, and waits for nine timers per such turn. *)
Theorem session_requests (turns : list (string * Env)) (w : World) :
  requests (trace (session turns w))
  = requests (trace w)
    ++ ((λ turn, JSON_stringify (JObj [("text", JStr turn.1)])) <$> submitted turns)
  ∧ count_timers (trace (session turns w))
    = count_timers (trace w) + 9 * List.length (submitted turns).
Proof.
  revert w. induction turns as [|turn turns IH]; intros w.
  - simpl. rewrite app_nil_r. split; [done|lia].
  - unfold session in *. simpl.
    destruct (IH (exchange w turn)) as [-> ->].
    destruct (exchange_trace w turn) as [-> ->].
    unfold submitted. case_bool_decide as Hblank.
    + rewrite filter_cons_False by (by intros ?). rewrite app_nil_r. split; [done|lia].
    + rewrite filter_cons_True by done. rewrite <- app_assoc. simpl. split; [done|lia].
Qed.

(** ** Further properties: what the classification throws *)

Lemma loud_Normal {A} (a : A) : loud (Normal a).
Proof. by intros error. Qed.

Lemma loud_Throw {A} (m : string) : m ≠ "" → loud (@Throw A (TypeError m)).
Proof. intros Hm error [= <-]. by exists m. Qed.

Lemma loud_bind {A B} (c : completion A) (f : A → completion B) :
  loud c → (∀ a, loud (f a)) → loud (c ≫= f).
Proof. intros Hc Hf. destruct c as [a|e]; [apply Hf|]. intros error [= <-]. by apply Hc. Qed.

Lemma loud_or_else (a b : completion value) : loud a → loud b → loud (a ||| b).
Proof.
  intros Ha Hb. destruct a as [x|e]; simpl; [by destruct (ToBoolean x)|].
  intros error [= <-]. by apply Ha.
Qed.

Lemma loud_and_then (a b : completion value) : loud a → loud b → loud (a &&& b).
Proof.
  intros Ha Hb. destruct a as [x|e]; simpl; [by destruct (ToBoolean x)|].
  intros error [= <-]. by apply Ha.
Qed.

Lemma loud_Get (v : value) (key : string) : loud (Get v key).
Proof.
  destruct v as [|[]|]; try apply loud_Normal; apply loud_Throw; discriminate.
Qed.

Lemma loud_GetOptional (v : value) (key : string) : loud (GetOptional v key).
Proof. destruct v as [|[]|]; try apply loud_Normal; apply loud_Get. Qed.

Lemma loud_mapC {A B} (f : A → completion B) (xs : list A) :
  Forall (λ x, loud (f x)) xs → loud (mapC f xs).
Proof.
  induction 1 as [|x xs Hx _ IH]; simpl; [apply loud_Normal|].
  apply loud_bind; [done|]. intros y. apply loud_bind; [done|]. intros ys. apply loud_Normal.
Qed.

Lemma loud_forEach {A S} (xs : list A) (body : S → A → completion S) (acc : S) :
  (∀ acc x, loud (body acc x)) → loud (forEach xs body acc).
Proof.
  intros Hbody. revert acc. induction xs as [|x xs IH]; intros acc; simpl.
  - apply loud_Normal.
  - pose proof (Hbody acc x) as Hx. destruct (body acc x) as [acc'|e]; [apply IH|].
    intros error [= <-]. by apply Hx.
Qed.

Lemma loud_ToString_json (j : json) : loud (ToString_json j).
Proof.
  induction j as [ | b | n | s | elements IH | properties _] using json_ind';
    try apply loud_Normal.
  - simpl. apply loud_bind; [|intros; apply loud_Normal].
    apply loud_mapC. eapply Forall_impl; [exact IH|].
    intros x Hx. destruct x; first [apply loud_Normal | exact Hx].
  - simpl. destruct (own "toString" properties); [|apply loud_Normal].
    apply loud_Throw. discriminate.
Qed.

Lemma loud_ToString (v : value) : loud (ToString v).
Proof. destruct v; first [apply loud_Normal | apply loud_ToString_json]. Qed.

Lemma loud_join (sep : string) (xs : list value) : loud (join sep xs).
Proof.
  unfold join. apply loud_bind; [|intros; apply loud_Normal].
  apply loud_mapC. apply Forall_forall. intros x _.
  destruct x as [|[]|]; first [apply loud_Normal | apply loud_ToString].
Qed.

Lemma loud_Object_entries (v : value) : loud (Object_entries v).
Proof.
  destruct v as [|[]|]; try apply loud_Normal; apply loud_Throw; discriminate.
Qed.

Ltac loud_walk :=
  repeat (cbv beta zeta;
          first [ apply loud_Normal
                | apply loud_Get
                | apply loud_GetOptional
                | apply loud_ToString
                | apply loud_join
                | apply loud_Object_entries
                | apply loud_bind; [|intros ?]
                | apply loud_or_else
                | apply loud_and_then
                | apply loud_forEach; intros ? ?
                | apply loud_mapC; apply Forall_forall; intros ? _
                | apply loud_Throw; discriminate
                | lazymatch goal with
                  | |- loud (match ?x with _ => _ end) => destruct x
                  end ]).

Lemma loud_botReply (data : json) : loud (botReply data).
Proof.
  unfold botReply, format_step, format_synthesis, bullets, joined_or_None,
    mapped_or_None, format_reasoning_entry.
  loud_walk.
Qed.

(** X21.  When the classification itself throws, what it throws is a
    [TypeError] with a non-empty message: the error reply then always
    shows its line of technical details, with that message. *)
Theorem normalizer_errors_are_shown (data : json) (error : Error) :
  botReply data = Throw error →
  (∃ m, error = TypeError m ∧ m ≠ "")
  ∧ error_details (delivered (botReply data)) = Some (message error).
Proof.
  intros Hthrow. destruct (loud_botReply data error Hthrow) as (m & -> & Hm).
  split; [by exists m|]. rewrite Hthrow. simpl. by rewrite bool_decide_false.
Qed.

(** ** Further properties: the text of a perspective *)

Lemma format_reasoning_entry_extends (text : string) (rp : json) (result : string) :
  format_reasoning_entry text rp = Normal result → ∃ u, result = text +:+ u.
Proof.
  unfold format_reasoning_entry. destruct (bool_decide _); intros Hrun;
    repeat (apply bind_eq_Normal in Hrun as (? & _ & Hrun); cbv beta in Hrun);
    injection Hrun as <-; by eexists.
Qed.

Lemma format_step_text (responses filled : gmap string string) (step : json) :
  format_step responses step = Normal filled →
  ∃ key rest,
    filled = (if bool_decide (key = "__proto__") then responses
              else <[key := "**Core Insight**: " +:+ rest]> responses).
Proof.
  unfold format_step. intros Hrun.
  repeat (apply bind_eq_Normal in Hrun as (? & ? & Hrun); cbv beta zeta in Hrun).
  injection Hrun as <-.
  lazymatch goal with
  | _ : Get (VJson step) "reasoning_process" = Normal ?rp |- _ => destruct rp as [|[]|]
  end;
  repeat match goal with
         | Hb : forEach _ format_reasoning_entry _ = Normal _ |- _ =>
             apply forEach_extends in Hb; [|apply format_reasoning_entry_extends]
         | Hb : @Normal string _ = Normal _ |- _ => injection Hb as <-
         end;
  (lazymatch goal with
   | |- context [<[?k := ?text]> responses] =>
       cut (∃ u, text = "**Core Insight**: " +:+ u);
       [intros [u ->]; by exists k, u|]
   end);
  repeat first [ apply extends_refl
               | apply extends_append
               | eapply extends_trans; [|eassumption] ].
Qed.

Lemma forEach_format_step_texts (steps : list json) (acc responses : gmap string string) :
  map_Forall (λ _ text, ∃ rest, text = "**Core Insight**: " +:+ rest) acc →
  forEach steps format_step acc = Normal responses →
  map_Forall (λ _ text, ∃ rest, text = "**Core Insight**: " +:+ rest) responses.
Proof.
  revert acc. induction steps as [|step steps IH]; intros acc Hacc; simpl.
  - by intros [= <-].
  - destruct (format_step acc step) as [filled|] eqn:Hstep; [|done].
    apply IH. apply format_step_text in Hstep as (key & rest & ->).
    case_bool_decide; [done|]. apply map_Forall_insert_2; [by exists rest|done].
Qed.

(** X22.  Every perspective of a philosophical reply is a text that
    begins with the Core Insight heading, whatever the entries of the
    chain hold. *)
Theorem perspectives_begin_with_insight (data : json) (philosophers : value)
    (responses : gmap string string) (synthesis : value) (name text : string) :
  botReply data = Normal (philosophical_response philosophers responses synthesis) →
  responses !! name = Some text →
  ∃ rest, text = "**Core Insight**: " +:+ rest.
Proof.
  intros Hrun Hname. assert (data ≠ JNull) as Hnn by (intros ->; discriminate Hrun).
  rewrite botReply_unfold in Hrun by done.
  destruct (_ && _); [|by destruct (bool_decide _)].
  apply bind_eq_Normal in Hrun as (filled & Hchain & Hrun).
  apply bind_eq_Normal in Hrun as (? & _ & [= _ -> _]).
  destruct (field data "reasoning_chain") as [|[ | | | |steps| ]|]; try done.
  apply forEach_format_step_texts in Hchain; [|apply map_Forall_empty].
  by apply (Hchain name text).
Qed.

End Properties.

(** * Concrete runs *)

(** C1, counterexample.  The body [null] makes the classifier itself throw at
    its first property read; the [catch] branch then delivers the error
    reply. *)
Lemma null_body_throws :
  botReply JNull
  = Throw (TypeError "Cannot read properties of null (reading 'reasoning_chain')")
  ∧ messages (ui (handleSubmit (answers JNull) (idle "hi")))
    = [ {| sender := user; text := Text "hi"; timestamp := 1000%N |};
        {| sender := bot;
           text := Structured
             (error_response apology
                "Cannot read properties of null (reading 'reasoning_chain')");
           timestamp := 8300%N |} ]
  ∧ ¬ (∀ data : json, returns (botReply data)).
Proof.
  split; [reflexivity|]. split; [reflexivity|].
  intros Hclaim. by destruct (Hclaim JNull).
Qed.

(** C1, on Scenario B. *)
Lemma classifier_completes_witness :
  scenario_B ≠ JNull
  ∧ ∃ reply, botReply scenario_B = Normal reply
             ∧ delivered (botReply scenario_B) = reply
             ∧ variant reply ≠ ErrorVariant.
Proof.
  split; [discriminate|].
  apply (classifier_completes scenario_B); [discriminate|].
  intros _. split; reflexivity.
Defined.

(** C2, counterexample.  Three bodies on which the order of the
    specification and the code part: [null] (no field at all, yet no
    RawFallback: the classifier throws), a body with both fields present
    but an empty [synthesis] (Synthesis, not Philosophical), and a body
    whose [reasoning_chain] holds a [null] entry (a throw, not
    Philosophical). *)
Lemma classification_departs :
  (spec_classification JNull = RawFallback
   ∧ variant (delivered (botReply JNull)) = ErrorVariant)
  ∧ (spec_classification present_but_empty = Philosophical
     ∧ botReply present_but_empty
       = Normal (synthesis_response default_philosophers (Str "")))
  ∧ (spec_classification chain_of_null = Philosophical
     ∧ botReply chain_of_null
       = Throw (TypeError "Cannot read properties of null (reading 'philosopher')"))
  ∧ ¬ (∀ data : json, variant (delivered (botReply data)) = spec_classification data).
Proof.
  repeat split; try reflexivity.
  intros Hclaim. by specialize (Hclaim JNull).
Qed.

(** C2, on an unrecognized shape. *)
Lemma classification_order_witness :
  unrecognized ≠ JNull
  ∧ typeof (field unrecognized "synthesis") ≠ "string"
  ∧ botReply unrecognized
    = Normal (formatted_response (JSON_stringify_2 unrecognized)).
Proof.
  split; [discriminate|]. split; [discriminate|].
  apply (classification_order unrecognized); [discriminate|reflexivity|discriminate].
Defined.

(** C3, counterexample.  Without [philosophers_consulted] the Philosophical
    variant carries [undefined], not a default list. *)
Lemma philosophical_has_no_default :
  field empty_chain "philosophers_consulted" = VUndefined
  ∧ botReply empty_chain
    = Normal (philosophical_response VUndefined ∅ (Str "Know thyself."))
  ∧ ¬ (∀ (data : json) philosophers responses synthesis,
         field data "philosophers_consulted" = VUndefined →
         botReply data = Normal (philosophical_response philosophers responses synthesis) →
         ∃ names, philosophers = VJson (JArr names)).
Proof.
  split; [reflexivity|]. split; [reflexivity|].
  intros Hclaim.
  by destruct (Hclaim empty_chain VUndefined ∅ (Str "Know thyself.") eq_refl eq_refl).
Qed.

(** C3, on Scenario A. *)
Lemma philosophers_field_witness :
  scenario_A ≠ JNull
  ∧ ToBoolean (field scenario_A "philosophers") = false
  ∧ botReply scenario_A
    = Normal (synthesis_response default_philosophers (field scenario_A "synthesis")).
Proof.
  split; [discriminate|]. split; [reflexivity|].
  apply (philosophers_field scenario_A); [discriminate|reflexivity..].
Defined.

(** C4, counterexample.  In a run the request is the event after the ninth
    timer: nothing of the stage loop is pending when it is issued. *)
Lemma fetch_follows_timers :
  trace (handleSubmit (answers scenario_A) (idle "hi"))
  = [ preventDefault;
      setTimeout 800; setTimeout 800; setTimeout 800; setTimeout 800;
      setTimeout 800; setTimeout 800; setTimeout 800; setTimeout 800;
      setTimeout 800;
      fetch "http://localhost:8000/ask" "POST"
            (JSON_stringify (JObj [("text", JStr "hi")]));
      res_json ]
  ∧ timers_after_fetch (trace (handleSubmit (answers scenario_A) (idle "hi"))) = 0
  ∧ ¬ (∀ env q, trim q ≠ "" →
                0 < timers_after_fetch (trace (handleSubmit env (idle q)))).
Proof.
  split; [reflexivity|]. split; [reflexivity|].
  intros Hclaim. specialize (Hclaim (answers scenario_A) "hi"). simpl in Hclaim.
  assert (0 < 0) by (by apply Hclaim). lia.
Qed.

(** C4, on the submission of "hi". *)
Lemma timers_precede_fetch_witness :
  trim (query (ui (idle "hi"))) ≠ ""
  ∧ let at_request :=
      until_request (answers scenario_A) (query (ui (idle "hi")))
        (emit preventDefault (idle "hi")) in
    handleSubmit (answers scenario_A) (idle "hi")
    = from_request (answers scenario_A) (query (ui (idle "hi"))) at_request
    ∧ trace at_request
      = trace (idle "hi") ++ [preventDefault] ++ replicate 9 (setTimeout 800)
    ∧ status <$> thinkingSteps (ui at_request) = replicate 9 completed
    ∧ loading (ui at_request) = true
    ∧ trace (handleSubmit (answers scenario_A) (idle "hi"))
      = trace at_request
        ++ fetch "http://localhost:8000/ask" "POST"
                 (JSON_stringify (JObj [("text", JStr (query (ui (idle "hi"))))]))
           :: match network (answers scenario_A) with
              | fetch_rejects _ => []
              | _ => [res_json]
              end
    ∧ ∃ events,
        trace (handleSubmit (answers scenario_A) (idle "hi"))
        = trace (idle "hi") ++ events
        ∧ events
          = [preventDefault] ++ replicate 9 (setTimeout 800)
            ++ fetch "http://localhost:8000/ask" "POST"
                     (JSON_stringify (JObj [("text", JStr (query (ui (idle "hi"))))]))
               :: match network (answers scenario_A) with
                  | fetch_rejects _ => []
                  | _ => [res_json]
                  end
        ∧ timers_after_fetch events = 0.
Proof.
  split; [discriminate|].
  exact (timers_precede_fetch (answers scenario_A) (idle "hi") ltac:(discriminate)).
Defined.

(** C5, on the submission of "hi" answered by Scenario A. *)
Lemma one_bot_message_witness :
  trim "hi" ≠ ""
  ∧ ∃ botMessage,
      messages (ui (handleSubmit (answers scenario_A) (idle "hi")))
      = [] ++ [ {| sender := user; text := Text "hi"; timestamp := 1000%N |}; botMessage ]
      ∧ sender botMessage = bot
      ∧ text botMessage = Structured (delivered (network_outcome (answers scenario_A)))
      ∧ thinkingSteps (ui (handleSubmit (answers scenario_A) (idle "hi"))) = []
      ∧ loading (ui (handleSubmit (answers scenario_A) (idle "hi"))) = false
      ∧ typingMessage (ui (handleSubmit (answers scenario_A) (idle "hi"))) = None.
Proof.
  split; [discriminate|].
  apply (one_bot_message (answers scenario_A) (idle "hi")). discriminate.
Defined.

(** C6, on Scenario A of the specification. *)
Lemma plain_synthesis_witness :
  field scenario_A "synthesis" = Str "Know thyself."
  ∧ field scenario_A "reasoning_chain" = VUndefined
  ∧ botReply scenario_A
    = Normal (synthesis_response (VJson (JArr [JStr "Ancient Philosophers"]))
                (Str "Know thyself.")).
Proof.
  split; [reflexivity|]. split; [reflexivity|].
  destruct (plain_synthesis scenario_A "Know thyself." eq_refl eq_refl)
    as (philosophers & Hreply & Hdefault).
  rewrite Hreply, (Hdefault eq_refl). reflexivity.
Defined.

(** C7, on a query of three spaces. *)
Lemma blank_query_noop_witness :
  whitespace_only "   " = true
  ∧ ui (handleSubmit (answers scenario_A) (idle "   ")) = ui (idle "   ")
  ∧ trace (handleSubmit (answers scenario_A) (idle "   ")) = [] ++ [preventDefault].
Proof.
  split; [reflexivity|].
  apply (blank_query_noop (answers scenario_A) (idle "   ")). reflexivity.
Defined.

(** C9, counterexample.  A truthy [reasoning_chain] that is not an array,
    next to a non-empty plain [synthesis]: [forEach] is not a function, and
    the run ends in the error reply. *)
Lemma chain_not_array_throws :
  ToBoolean (field chain_not_array "reasoning_chain") = true
  ∧ field chain_not_array "synthesis" = Str "x"
  ∧ botReply chain_not_array
    = Throw (TypeError "data.reasoning_chain.forEach is not a function")
  ∧ variant (delivered (botReply chain_not_array)) = ErrorVariant
  ∧ ¬ (∀ (data : json) s,
         ToBoolean (field data "reasoning_chain") = true →
         field data "synthesis" = Str s → s ≠ "" →
         ∃ philosophers responses,
           botReply data = Normal (philosophical_response philosophers responses (Str s))).
Proof.
  repeat split; try reflexivity.
  intros Hclaim.
  by destruct (Hclaim chain_not_array "x" eq_refl eq_refl) as (? & ? & ?).
Qed.

(** C9, on a chain of one entry. *)
Lemma chain_array_keeps_synthesis_witness :
  tame (JArr [JObj [("philosopher", JStr "Socrates")]]) = true
  ∧ ∃ responses,
      forEach [JObj [("philosopher", JStr "Socrates")]] format_step ∅ = Normal responses
      ∧ botReply one_step_chain
        = Normal (philosophical_response
                    (field one_step_chain "philosophers_consulted") responses (Str "x")).
Proof.
  split; [reflexivity|].
  apply (chain_array_keeps_synthesis one_step_chain
           [JObj [("philosopher", JStr "Socrates")]] "x");
    [reflexivity|reflexivity|reflexivity|discriminate].
Defined.

(** C10, counterexample.  An empty string in [metacognitive_enhancement] is
    present and falsy, yet the section prints it, as an empty bullet,
    where a missing field prints the placeholder. *)
Lemma empty_enhancement_is_printed :
  ToBoolean (JStr "") = false
  ∧ lines (format_synthesis (JObj [("metacognitive_enhancement", JStr "")])) !! 9
    = Some "- "
  ∧ lines (format_synthesis (JObj [])) !! 9
    = Some "- No metacognitive enhancement provided"
  ∧ ¬ (∀ properties key (v : json),
         key ∈ synthesis_fields → own key properties = Some v → ToBoolean v = false →
         format_synthesis (JObj properties)
         = format_synthesis (JObj (remove_property key properties))).
Proof.
  repeat split; try reflexivity.
  intros Hclaim.
  specialize (Hclaim [("metacognitive_enhancement", JStr "")]
                     "metacognitive_enhancement" (JStr "")).
  assert (lines (format_synthesis (JObj [("metacognitive_enhancement", JStr "")])) !! 9
          = lines (format_synthesis (JObj [])) !! 9) as Hsame.
  { rewrite Hclaim; [reflexivity| |reflexivity|reflexivity].
    unfold synthesis_fields. repeat constructor. }
  vm_compute in Hsame. discriminate Hsame.
Qed.

(** C10, on an entry with an empty core insight. *)
Lemma falsy_field_as_missing_witness :
  own "core_insight" [("philosopher", JStr "Socrates"); ("core_insight", JStr "")]
  = Some (JStr "")
  ∧ format_step ∅ (JObj [("philosopher", JStr "Socrates"); ("core_insight", JStr "")])
    = format_step ∅ (JObj [("philosopher", JStr "Socrates")]).
Proof.
  split; [reflexivity|].
  apply (falsy_field_as_missing
           [("philosopher", JStr "Socrates"); ("core_insight", JStr "")]
           "core_insight" (JStr "")); [reflexivity|reflexivity|].
  unfold step_fields. constructor.
Defined.

(** ** The scenarios of the specification and the named examples *)

(** Scenario B: one perspective headed by its core insight, every other
    section at its placeholder. *)
Lemma scenario_B_reply :
  ∃ responses synthesis,
    botReply scenario_B = Normal (philosophical_response VUndefined responses synthesis)
    ∧ size responses = 1
    ∧ split_lines "" <$> responses !! "Socrates"
      = Some [ "**Core Insight**: Question everything"; "";
               "**Reasoning Process**:"; "- No reasoning process provided"; "";
               "**Metacognitive Awareness**: None";
               "**Socratic Catalyst**: None";
               "**Practical Application**: None";
               "**Connection to Principles**: None";
               "**Cognitive Stimulation**: None" ]
    ∧ lines (Normal synthesis)
      = [ "**Integrated Wisdom**: Examine your life."; "";
          "**Key Insights**:"; "- No key insights provided"; "";
          "**Practical Steps**:"; "- No practical steps provided"; "";
          "**Metacognitive Enhancement**:";
          "- No metacognitive enhancement provided"; "";
          "**Reasoning Quality Assessment**:";
          "- No reasoning quality assessment provided"; "";
          "**Cognitive Bridges**:"; "- No cognitive bridges provided"; "";
          "**Transformative Elements**:";
          "- No transformative elements provided"; "";
          "**Application Scenarios**:"; "- No application scenarios provided"; "";
          "**Deepening Questions**:"; "- No deepening questions provided"; "";
          "**Metacognitive Prompts**:"; "None"; "";
          "**Dialectical Challenges**:";
          "- No dialectical challenges provided"; "";
          "**Synthesis Quality Score**: Not provided";
          "**Cognitive Enhancement Elements**:"; "None" ].
Proof. do 2 eexists. split; [reflexivity|]. repeat split; vm_compute; reflexivity. Qed.

(** Scenario C: a rejected request ends in the error reply with the fixed
    apology, the failure attached. *)
Lemma scenario_C_reply :
  messages (ui (handleSubmit
                  {| submitted_at := 1000%N; typing_at := 8200%N; replied_at := 8300%N;
                     network := fetch_rejects (TypeError "Failed to fetch") |}
                  (idle "hi")))
  = [ {| sender := user; text := Text "hi"; timestamp := 1000%N |};
      {| sender := bot;
         text := Structured (error_response apology "Failed to fetch");
         timestamp := 8300%N |} ].
Proof. reflexivity. Qed.

(** Scenario D: an unrecognized shape, pretty-printed with two spaces. *)
Lemma scenario_D_reply :
  ∃ content,
    botReply unrecognized = Normal (formatted_response content)
    ∧ split_lines "" content
      = [ "{";
          "  " +:+ DQUOTE +:+ "answer" +:+ DQUOTE +:+ ": 42,";
          "  " +:+ DQUOTE +:+ "tags" +:+ DQUOTE +:+ ": [";
          "    " +:+ DQUOTE +:+ "a" +:+ DQUOTE +:+ ",";
          "    null";
          "  ]";
          "}" ].
Proof. eexists. split; reflexivity. Qed.

(** The two examples C10 names: an empty [core_insight] and a
    [synthesis_quality_score] of 0 print the placeholders. *)
Lemma empty_core_insight_placeholder :
  ∃ responses,
    format_step ∅ (JObj [("philosopher", JStr "Socrates"); ("core_insight", JStr "")])
    = Normal responses
    ∧ head <$> (split_lines "" <$> responses !! "Socrates")
      = Some (Some "**Core Insight**: No insight provided").
Proof. eexists. split; [reflexivity|]. vm_compute. reflexivity. Qed.

Lemma zero_quality_score_placeholder :
  lines (format_synthesis (JObj [("synthesis_quality_score", JNum 0%Z)])) !! 32
  = Some "**Synthesis Quality Score**: Not provided".
Proof. reflexivity. Qed.

(** A string entry of [connection_to_principles] has a truthy [link], the
    legacy method of [String.prototype]: the section prints the function. *)
Lemma link_of_a_string_entry :
  ∃ responses,
    format_step ∅ (JObj [("philosopher", JStr "Socrates");
                         ("connection_to_principles", JArr [JStr "Know thyself"])])
    = Normal responses
    ∧ (split_lines "" <$> responses !! "Socrates") ≫= (.!! 8)
      = Some "**Connection to Principles**: function link() { [native code] }".
Proof. eexists. split; [reflexivity|]. vm_compute. reflexivity. Qed.

(** ** The further properties, on concrete inputs *)

(** X2, on the catalog of "hi" and the id 10. *)
Lemma updateThinkingStep_unknown_id_witness :
  (10 ∉ id <$> thinkingSteps
                 (ui (setThinkingSteps (λ _, simulateThinkingSteps "hi") (idle ""))))
  ∧ updateThinkingStep 10 completed
      (setThinkingSteps (λ _, simulateThinkingSteps "hi") (idle ""))
    = setThinkingSteps (λ _, simulateThinkingSteps "hi") (idle "").
Proof.
  assert (10 ∉ (id <$> thinkingSteps
                          (ui (setThinkingSteps (λ _, simulateThinkingSteps "hi") (idle "")))))
    as Hfree by (refine (bool_decide_unpack _ _); vm_compute; exact I).
  split; [exact Hfree|].
  apply (updateThinkingStep_unknown_id 10 completed
           (setThinkingSteps (λ _, simulateThinkingSteps "hi") (idle ""))).
  exact Hfree.
Defined.

(** X4, after three rounds over the catalog of "hi". *)
Lemma stages_complete_in_order_witness :
  NoDup (id <$> simulateThinkingSteps "hi")
  ∧ 3 ≤ List.length (simulateThinkingSteps "hi")
  ∧ status <$> thinkingSteps
                 (ui (thinking_rounds (simulateThinkingSteps "hi") 3
                        (setThinkingSteps (λ _, simulateThinkingSteps "hi") (idle ""))))
    = [completed; completed; completed; thinking; pending; pending; pending; pending;
       pending].
Proof.
  assert (NoDup (id <$> simulateThinkingSteps "hi")) as Hids
    by (refine (bool_decide_unpack _ _); vm_compute; exact I).
  assert (3 ≤ List.length (simulateThinkingSteps "hi")) as Hk by (simpl; lia).
  split; [exact Hids|]. split; [exact Hk|].
  destruct (stages_complete_in_order (simulateThinkingSteps "hi") 3
              (setThinkingSteps (λ _, simulateThinkingSteps "hi") (idle ""))
              Hids eq_refl Hk) as (Hstatus & _ & _).
  rewrite Hstatus. reflexivity.
Defined.

(** X6, on a session of a blank turn and a turn answered by Scenario A. *)
Lemma session_stays_idle_witness :
  loading (ui (idle "")) = false
  ∧ loading (ui (session [("  ", answers scenario_A); ("hi", answers scenario_A)] (idle "")))
    = false
  ∧ thinkingSteps
      (ui (session [("  ", answers scenario_A); ("hi", answers scenario_A)] (idle ""))) = []
  ∧ typingMessage
      (ui (session [("  ", answers scenario_A); ("hi", answers scenario_A)] (idle "")))
    = None.
Proof.
  split; [reflexivity|].
  apply (session_stays_idle [("  ", answers scenario_A); ("hi", answers scenario_A)]
           (idle "")); reflexivity.
Defined.

(** X7, on a submission of "hi" made while a request is pending. *)
Lemma handleSubmit_ignores_loading_witness :
  trim (query (ui (idle "hi"))) ≠ ""
  ∧ ui (handleSubmit (answers scenario_A) (setLoading true (idle "hi")))
    = ui (handleSubmit (answers scenario_A) (idle "hi"))
  ∧ trace (handleSubmit (answers scenario_A) (setLoading true (idle "hi")))
    = trace (handleSubmit (answers scenario_A) (idle "hi")).
Proof.
  split; [discriminate|].
  apply (handleSubmit_ignores_loading (answers scenario_A) (idle "hi") true). discriminate.
Defined.

(** X8, after the submission of "hi" answered by Scenario A: the reply
    renders, and the component shows the two bubbles. *)
Lemma view_after_submission_witness :
  trim (query (ui (idle "hi"))) ≠ ""
  ∧ mapC (λ msg, renderResponse (text msg)) (messages (ui (idle "hi"))) = Normal []
  ∧ renderResponse (Structured (delivered (network_outcome (answers scenario_A))))
    = Normal (synthesis_bubble (Str "Ancient Philosophers") (Str "Know thyself."))
  ∧ App (ui (handleSubmit (answers scenario_A) (idle "hi")))
    = Normal {| shows_welcome := false;
                shows_thinking := false;
                shows_bubbles :=
                  [] ++ [ message_text (query (ui (idle "hi")));
                          synthesis_bubble (Str "Ancient Philosophers")
                                           (Str "Know thyself.") ];
                shows_typing := false;
                disables_input := false;
                disables_send := true |}.
Proof.
  assert (trim (query (ui (idle "hi"))) ≠ "") as Hq by discriminate.
  split; [exact Hq|]. split; [reflexivity|]. split; [reflexivity|].
  destruct (view_after_submission (answers scenario_A) (idle "hi") [] Hq eq_refl)
    as [Hshown _].
  exact (Hshown _ eq_refl).
Defined.

(** A reply that is built and does not render: the names of the response
    are the string "Plato", the handler ends at rest, and the next render
    throws. *)
Lemma unrenderable_reply :
  input_disabled (ui (handleSubmit (answers names_not_a_list) (idle "hi"))) = false
  ∧ App (ui (handleSubmit (answers names_not_a_list) (idle "hi")))
    = Throw (TypeError "response.philosophers?.join is not a function").
Proof. split; reflexivity. Qed.

(** X9, on an entry that names no philosopher. *)
Lemma entry_filed_by_name_witness :
  ∃ text,
    format_step ∅ unnamed_entry = Normal {[ "undefined" := text ]}
    ∧ ∃ key text',
        ToString (field unnamed_entry "philosopher") = Normal key
        ∧ ({[ "undefined" := text ]} : gmap string string)
          = (if bool_decide (key = "__proto__") then ∅ else <[key := text']> ∅)
        ∧ (∀ other, other ≠ key →
                    ({[ "undefined" := text ]} : gmap string string) !! other
                    = (∅ : gmap string string) !! other)
        ∧ (field unnamed_entry "philosopher" = VUndefined → key = "undefined").
Proof.
  eexists. split; [reflexivity|].
  apply (entry_filed_by_name ∅ _ unnamed_entry). reflexivity.
Defined.

(** X10, on two entries for Socrates. *)
Lemma last_entry_wins_witness :
  ∃ responses text,
    forEach ([first_entry] ++ [second_entry]) format_step ∅ = Normal responses
    ∧ format_step ∅ second_entry = Normal {[ "Socrates" := text ]}
    ∧ responses !! "Socrates" = Some text.
Proof.
  do 2 eexists. split; [reflexivity|]. split; [reflexivity|].
  apply (last_entry_wins [first_entry] second_entry); reflexivity.
Defined.

(** X11, on the two entries for Socrates. *)
Lemma perspectives_bound_witness :
  ∃ responses,
    forEach [first_entry; second_entry] format_step ∅ = Normal responses
    ∧ size responses ≤ 2.
Proof.
  eexists. split; [reflexivity|].
  apply (perspectives_bound [first_entry; second_entry]). reflexivity.
Defined.

(** X12, on Scenario B. *)
Lemma stored_synthesis_witness :
  ∃ responses synthesis,
    botReply scenario_B = Normal (philosophical_response VUndefined responses synthesis)
    ∧ ToBoolean synthesis = true
    ∧ ∃ rest, synthesis = Str ("**Integrated Wisdom**: " +:+ rest).
Proof.
  do 2 eexists. split; [reflexivity|].
  destruct (stored_synthesis scenario_B _ _ _ eq_refl) as (Htruthy & _ & Hobject).
  split; [exact Htruthy|]. apply Hobject. reflexivity.
Defined.

(** X13, on a chain that comes with the number 7 as its synthesis: the
    reply is built and rendered, and its synthesis is not shown. *)
Lemma synthesis_block_witness :
  botReply number_synthesis
  = Normal (philosophical_response VUndefined ∅ (field number_synthesis "synthesis"))
  ∧ renderResponse
      (Structured
         (philosophical_response VUndefined ∅ (field number_synthesis "synthesis")))
    = Normal (philosophical_bubble (Str "Multiple philosophers") ∅ no_child)
  ∧ ∃ names,
      consulted VUndefined "Multiple philosophers" = Normal names
      ∧ philosophical_bubble (Str "Multiple philosophers") ∅ no_child
        = philosophical_bubble names ∅
            (synthesis_child (field number_synthesis "synthesis"))
      ∧ match synthesis_child (field number_synthesis "synthesis") with
        | integrated_wisdom s =>
            field number_synthesis "synthesis" = Str s
            ∧ (typeof (field number_synthesis "synthesis") = "string"
               ∨ typeof (field number_synthesis "synthesis") = "object")
        | no_child =>
            field number_synthesis "synthesis" = field number_synthesis "synthesis"
            ∧ (typeof (field number_synthesis "synthesis") = "number"
               ∨ typeof (field number_synthesis "synthesis") = "boolean")
        | text_child _ => False
        end.
Proof.
  split; [reflexivity|]. split; [reflexivity|].
  exact (synthesis_block number_synthesis VUndefined ∅
           (field number_synthesis "synthesis")
           (philosophical_bubble (Str "Multiple philosophers") ∅ no_child)
           eq_refl eq_refl).
Defined.

(** X14, on a list that holds [null] alone: its elements join to the
    empty string, and the fallback is shown. *)
Lemma consulted_never_blank_witness :
  "Ancient Philosophers" ≠ ""
  ∧ join ", " (map VJson [JNull]) = Normal ""
  ∧ consulted (VJson (JArr [JNull])) "Ancient Philosophers"
    = Normal (Str "Ancient Philosophers")
  ∧ ∃ names,
      Str "Ancient Philosophers" = Str names ∧ names = "Ancient Philosophers".
Proof.
  assert ("Ancient Philosophers" ≠ "") as Hfallback by discriminate.
  split; [exact Hfallback|]. split; [reflexivity|]. split; [reflexivity|].
  destruct (consulted_never_blank (VJson (JArr [JNull])) (Str "Ancient Philosophers")
              "Ancient Philosophers" Hfallback eq_refl)
    as (names & Hshown & _ & _ & Hjoined & _).
  exists names. split; [exact Hshown|].
  exact (Hjoined [JNull] "" eq_refl eq_refl).
Defined.

(** X15, on a response whose [philosophers] is the string "Plato". *)
Lemma unchecked_philosophers_witness :
  botReply names_not_a_list
  = Normal (synthesis_response (Str "Plato") (Str "Know thyself."))
  ∧ isArray (Str "Plato") = false
  ∧ ∃ error, consulted (Str "Plato") "Ancient Philosophers" = Throw error.
Proof.
  split; [reflexivity|]. split; [reflexivity|].
  apply (unchecked_philosophers names_not_a_list (Str "Plato") (Str "Know thyself."));
    reflexivity.
Defined.

(** X16, on the body that makes the first component throw. *)
Lemma later_versions_total_witness :
  chain_of_null ≠ JNull
  ∧ (∃ error, botReply chain_of_null = Throw error)
  ∧ (∃ reply, V2.botReply chain_of_null = Normal reply)
  ∧ (∃ reply, V3.botReply chain_of_null = Normal reply).
Proof.
  split; [discriminate|]. split; [by eexists|].
  apply (later_versions_total chain_of_null). discriminate.
Defined.


(** X18, on a response with two perspectives and no list of names. *)
Lemma V2_philosophers_default_witness :
  V2.botReply perspectives_without_names
  = Normal (V2.philosophical_response
              (VJson (JArr [JStr "Socrates"; JStr "Laozi"]))
              (field perspectives_without_names "responses")
              VUndefined VUndefined VUndefined)
  ∧ ToBoolean (VJson (JArr [JStr "Socrates"; JStr "Laozi"])) = true
  ∧ isArray (VJson (JArr [JStr "Socrates"; JStr "Laozi"])) = true
  ∧ Object_keys (field perspectives_without_names "responses")
    = Normal ["Socrates"; "Laozi"]
  ∧ ∃ keys,
      Object_keys (field perspectives_without_names "responses") = Normal keys
      ∧ VJson (JArr [JStr "Socrates"; JStr "Laozi"]) = VJson (JArr (JStr <$> keys)).
Proof.
  split; [reflexivity|].
  destruct (V2_philosophers_default perspectives_without_names
              (VJson (JArr [JStr "Socrates"; JStr "Laozi"]))
              (field perspectives_without_names "responses")
              VUndefined VUndefined VUndefined eq_refl)
    as (Htruthy & _ & _ & _ & _ & _ & _ & Hdefault).
  destruct (Hdefault eq_refl) as [Harray Hkeys].
  split; [exact Htruthy|]. split; [exact Harray|]. split; [reflexivity|]. exact Hkeys.
Defined.

(** X19, on a query with a quote and a line break in it. *)
Lemma request_body_injective_witness :
  JSON_stringify (JObj [("text", JStr ("a" +:+ DQUOTE +:+ LF))])
  = JSON_stringify (JObj [("text", JStr ("a" +:+ DQUOTE +:+ LF))])
  ∧ "a" +:+ DQUOTE +:+ LF = "a" +:+ DQUOTE +:+ LF.
Proof.
  split; [reflexivity|].
  apply (request_body_injective ("a" +:+ DQUOTE +:+ LF) ("a" +:+ DQUOTE +:+ LF)).
  reflexivity.
Defined.

(** X21, on a chain that holds [null]. *)
Lemma normalizer_errors_are_shown_witness :
  botReply chain_of_null
  = Throw (TypeError "Cannot read properties of null (reading 'philosopher')")
  ∧ error_details (delivered (botReply chain_of_null))
    = Some "Cannot read properties of null (reading 'philosopher')".
Proof.
  split; [reflexivity|].
  apply (normalizer_errors_are_shown chain_of_null
           (TypeError "Cannot read properties of null (reading 'philosopher')")).
  reflexivity.
Defined.

(** X22, on Scenario B. *)
Lemma perspectives_begin_with_insight_witness :
  ∃ responses synthesis text,
    botReply scenario_B = Normal (philosophical_response VUndefined responses synthesis)
    ∧ responses !! "Socrates" = Some text
    ∧ ∃ rest, text = "**Core Insight**: " +:+ rest.
Proof.
  do 3 eexists. split; [reflexivity|]. split; [vm_compute; reflexivity|].
  eapply (perspectives_begin_with_insight scenario_B VUndefined _ _ "Socrates");
    [reflexivity|vm_compute; reflexivity].
Defined.
